(** * mailer.py: a one-shot SMTP mail sender

    Shallow embedding of [src/python/mailer.py] and proofs of its
    specification.

    The program is one function, [main], which calls into the Python
    runtime and standard library ([argparse], [os.environ], [int],
    [str.lower], [open], [email.message], [ssl], [smtplib]).  The pure
    library functions are modelled as executable Rocq functions that follow
    CPython 3.11; the outside world (arguments, environment, file system,
    mail server) is an explicit [world] record, and the effects of a run
    are recorded in a trace of events.

    Python strings are modelled by Rocq strings, one [ascii] per code
    point, so the model covers the code points 0..255. *)

From Stdlib Require Import ZArith Ascii String List Bool Lia.
From stdpp Require Import gmap strings pretty list fin_maps.

Local Open Scope string_scope.
Local Open Scope Z_scope.

(** ** Python built-ins used by the program *)

Module Py.

Definition code (c : ascii) : N := N_of_ascii c.

Definition LF : string := String (ascii_of_N 10) EmptyString.

(** Truth value of a [str]: the empty string is falsy. *)
Definition truthy (s : string) : bool :=
  match s with
  | EmptyString => false
  | String _ _ => true
  end.

(** [a or b] on strings. *)
Definition or_ (a b : string) : string := if truthy a then a else b.

(** [str.lower] on code points below 256: the upper-case letters are
    A..Z and U+00C0..U+00DE without the multiplication sign U+00D7. *)
Definition is_upper (c : ascii) : bool :=
  let n := code c in
  ((65 <=? n) && (n <=? 90)
   || (192 <=? n) && (n <=? 222) && negb (n =? 215))%N.

Definition lower_char (c : ascii) : ascii :=
  if is_upper c then ascii_of_N (code c + 32) else c.

Fixpoint lower (s : string) : string :=
  match s with
  | EmptyString => EmptyString
  | String c r => String (lower_char c) (lower r)
  end.

(** [x in (a, b, c)]: membership in a tuple of strings. *)
Definition in_tuple (x : string) (t : list string) : bool :=
  existsb (String.eqb x) t.

(** *** [int(s)] in base 10

    Leading and trailing white space is stripped, one sign is allowed,
    the digits may be grouped by single underscores, and a literal of more
    than [max_str_digits] digits is refused (the default limit of the
    interpreter). *)

Definition is_digit (c : ascii) : bool :=
  let n := code c in ((48 <=? n) && (n <=? 57))%N.

Definition digit_value (c : ascii) : Z := Z.of_N (code c) - 48.

Definition is_int_space (c : ascii) : bool :=
  let n := code c in
  ((9 <=? n) && (n <=? 13) || (n =? 32) || (n =? 133) || (n =? 160))%N.

Definition max_str_digits : nat := 4300.

Fixpoint skip_space (s : string) : string :=
  match s with
  | EmptyString => EmptyString
  | String c r => if is_int_space c then skip_space r else s
  end.

Fixpoint all_space (s : string) : bool :=
  match s with
  | EmptyString => true
  | String c r => is_int_space c && all_space r
  end.

(** Digits after the sign: the value read so far, the number of digits
    read so far, and whether the previous character was a digit. *)
Fixpoint int_digits (acc : Z) (n : nat) (after_digit : bool) (s : string)
  : option (Z * nat) :=
  match s with
  | EmptyString => if after_digit then Some (acc, n) else None
  | String c r =>
      if is_digit c then int_digits (10 * acc + digit_value c) (S n) true r
      else if Ascii.eqb c "_" then
        (if after_digit then int_digits acc n false r else None)
      else if is_int_space c then
        (if after_digit && all_space r then Some (acc, n) else None)
      else None
  end.

(** [repr(s)], for the message of the [ValueError]: single quotes unless
    the string has single quotes and no double quote; the quote and the
    backslash are escaped, the characters that are not printable are
    written in hexadecimal. *)
Fixpoint has_char (q : ascii) (s : string) : bool :=
  match s with
  | EmptyString => false
  | String c r => Ascii.eqb c q || has_char q r
  end.

Definition hex_digit (n : N) : ascii :=
  if (n <? 10)%N then ascii_of_N (48 + n) else ascii_of_N (87 + n).

Definition printable (c : ascii) : bool :=
  let n := code c in
  ((32 <=? n) && (n <? 127) || (161 <=? n) && negb (n =? 173))%N.

Definition backslash : ascii := ascii_of_N 92.
Definition double_quote : ascii := ascii_of_N 34.

Definition repr_char (quote c : ascii) : string :=
  let one x := String x EmptyString in
  let n := code c in
  if Ascii.eqb c quote || Ascii.eqb c "\" then String "\" (one c)
  else if (n =? 9)%N then "\t"
  else if (n =? 10)%N then "\n"
  else if (n =? 13)%N then "\r"
  else if printable c then one c
  else String "\" (String "x"
         (String (hex_digit (n / 16)) (one (hex_digit (n mod 16))))).

Fixpoint repr_chars (quote : ascii) (s : string) : string :=
  match s with
  | EmptyString => EmptyString
  | String c r => repr_char quote c ++ repr_chars quote r
  end.

Definition repr (s : string) : string :=
  let quote : ascii :=
    if has_char "'" s && negb (has_char double_quote s)
    then double_quote else "'"%char in
  String quote (repr_chars quote s ++ String quote EmptyString).

(** [inl msg] stands for [ValueError(msg)]. *)
Definition int (s : string) : string + Z :=
  let s1 := skip_space s in
  let '(neg, s2) :=
    match s1 with
    | String "+" r => (false, r)
    | String "-" r => (true, r)
    | _ => (false, s1)
    end in
  match int_digits 0 0 false s2 with
  | Some (v, n) =>
      if (n <=? max_str_digits)%nat then inr (if neg then - v else v)
      else inl ("Exceeds the limit (" ++ pretty max_str_digits
                ++ " digits) for integer string conversion: value has "
                ++ pretty n
                ++ " digits; use sys.set_int_max_str_digits() to increase the limit")
  | None =>
      inl ("invalid literal for int() with base 10: "
           ++ String.substring 0 200 (repr s))
  end.

(** *** [str.splitlines] *)

Definition is_linebreak (c : ascii) : bool :=
  let n := code c in
  ((10 <=? n) && (n <=? 13) || (28 <=? n) && (n <=? 30) || (n =? 133))%N.

Definition is_CR (c : ascii) : bool := (code c =? 13)%N.
Definition is_LF (c : ascii) : bool := (code c =? 10)%N.

(** [cur] is the line being read, [None] between two lines. *)
Fixpoint splitlines_from (cur : option string) (s : string) : list string :=
  match s with
  | EmptyString =>
      match cur with
      | None => []
      | Some l => [l]
      end
  | String c r =>
      let l := default EmptyString cur in
      if is_linebreak c then
        match r with
        | String c' r' =>
            if is_CR c && is_LF c' then l :: splitlines_from None r'
            else l :: splitlines_from None r
        | EmptyString => [l]
        end
      else splitlines_from (Some (l ++ String c EmptyString)) r
  end.

Definition splitlines (s : string) : list string := splitlines_from None s.

End Py.

(** ** The argument parser (lines 14-18)

    [argparse.ArgumentParser()] with the three [add_argument] calls of
    [main]: the parser has the help action [-h]/[--help] that [argparse]
    adds by default and three required [store] options taking one
    argument each; it has no positional arguments.  [parse_args] follows
    [ArgumentParser._parse_known_args]: every argument is first classified
    as an option or as a plain argument, then the options are consumed
    from left to right. *)

Module Argparse.

Inductive dest := To | Subject | BodyFile.

Inductive action :=
| Help                (* [-h], [--help]: no argument *)
| Store (d : dest).   (* [required=True], one argument *)

Definition dest_eqb (a b : dest) : bool :=
  match a, b with
  | To, To | Subject, Subject | BodyFile, BodyFile => true
  | _, _ => false
  end.

Definition action_eqb (a b : action) : bool :=
  match a, b with
  | Help, Help => true
  | Store d, Store d' => dest_eqb d d'
  | _, _ => false
  end.

(** In the order of registration. *)
Definition option_string_actions : list (string * action) :=
  [ ("-h", Help); ("--help", Help);
    ("--to", Store To); ("--subject", Store Subject);
    ("--body-file", Store BodyFile) ].

Fixpoint assoc (k : string) (l : list (string * action)) : option action :=
  match l with
  | [] => None
  | (k', a) :: r => if String.eqb k k' then Some a else assoc k r
  end.

(** [s.split('=', 1)] when ['=' in s]. *)
Fixpoint split_eq (s : string) : option (string * string) :=
  match s with
  | EmptyString => None
  | String c r =>
      if Ascii.eqb c "=" then Some (EmptyString, r)
      else match split_eq r with
           | Some (a, b) => Some (String c a, b)
           | None => None
           end
  end.

Fixpoint has_space (s : string) : bool :=
  match s with
  | EmptyString => false
  | String c r => Ascii.eqb c " " || has_space r
  end.

(** The matcher [^-\d+$|^-\d*\.\d+$]; [$] also matches before a final
    line feed. *)
Fixpoint span_digits (s : string) : nat * string :=
  match s with
  | String c r =>
      if Py.is_digit c then let '(n, t) := span_digits r in (S n, t)
      else (O, s)
  | EmptyString => (O, s)
  end.

Definition at_end (s : string) : bool :=
  String.eqb s EmptyString || String.eqb s Py.LF.

Definition negative_number (s : string) : bool :=
  match s with
  | String "-" r =>
      let '(n, r1) := span_digits r in
      (0 <? n)%nat && at_end r1
      || match r1 with
         | String "." r2 =>
             let '(m, r3) := span_digits r2 in (0 <? m)%nat && at_end r3
         | _ => false
         end
  | _ => false
  end.

(** An option found in an argument: its action ([None] for an unknown
    option), the option string matched, and the argument attached to it,
    if any. *)
Definition option_tuple : Type := option action * string * option string.

(** [_get_option_tuples]: the options that [s] abbreviates. *)
Definition get_option_tuples (s : string) : list option_tuple :=
  match s with
  | String "-" (String "-" _) =>
      let '(option_prefix, explicit_arg) :=
        match split_eq s with
        | Some (p, e) => (p, Some e)
        | None => (s, None)
        end in
      omap (fun '(os, a) =>
              if String.prefix option_prefix os
              then Some (Some a, os, explicit_arg) else None)
           option_string_actions
  | String "-" (String c1 r) =>
      let short_option_prefix := String "-" (String c1 EmptyString) in
      let short_explicit_arg := r in
      omap (fun '(os, a) =>
              if String.eqb os short_option_prefix
              then Some (Some a, os, Some short_explicit_arg)
              else if String.prefix s os then Some (Some a, os, None)
              else None)
           option_string_actions
  | _ => []
  end.

Inductive classification :=
| Positional
| Optional (t : option_tuple)
| AmbiguousOption.

(** [_parse_optional]. *)
Definition parse_optional (s : string) : classification :=
  match s with
  | EmptyString => Positional
  | String c0 r0 =>
      if negb (Ascii.eqb c0 "-") then Positional
      else
        match assoc s option_string_actions with
        | Some a => Optional (Some a, s, None)
        | None =>
            match r0 with
            | EmptyString => Positional
            | _ =>
                let exact :=
                  match split_eq s with
                  | Some (os, e) =>
                      match assoc os option_string_actions with
                      | Some a => Some (Some a, os, Some e)
                      | None => None
                      end
                  | None => None
                  end in
                match exact with
                | Some t => Optional t
                | None =>
                    match get_option_tuples s with
                    | _ :: _ :: _ => AmbiguousOption
                    | [t] => Optional t
                    | [] =>
                        if negative_number s then Positional
                        else if has_space s then Positional
                        else Optional (None, s, None)
                    end
                end
            end
        end
  end.

(** The argument pattern: ['A'], ['-'] (the separator [--]) or ['O']. *)
Inductive token :=
| TArg (s : string)
| TSep
| TOpt (s : string) (t : option_tuple).

Inductive usage_error :=
| ErrAmbiguous (s : string)
| ErrExpectedOneArgument (d : dest)
| ErrIgnoredExplicitArgument (e : string)
| ErrRequired (missing : list dest)
| ErrUnrecognized (extras : list string).

(** Everything after [--] is a plain argument. *)
Fixpoint tokenize (argv : list string) : usage_error + list token :=
  match argv with
  | [] => inr []
  | s :: rest =>
      if String.eqb s "--" then inr (TSep :: map TArg rest)
      else
        match parse_optional s with
        | AmbiguousOption => inl (ErrAmbiguous s)
        | cl =>
            match tokenize rest with
            | inl e => inl e
            | inr ts =>
                inr (match cl with
                     | Optional t => TOpt s t
                     | _ => TArg s
                     end :: ts)
            end
        end
  end.

Record namespace := Namespace {
  to : option string;
  subject : option string;
  body_file : option string
}.

Definition setattr (ns : namespace) (d : dest) (v : string) : namespace :=
  match d with
  | To => Namespace (Some v) (subject ns) (body_file ns)
  | Subject => Namespace (to ns) (Some v) (body_file ns)
  | BodyFile => Namespace (to ns) (subject ns) (Some v)
  end.

Definition attr (d : dest) (ns : namespace) : option string :=
  match d with
  | To => to ns
  | Subject => subject ns
  | BodyFile => body_file ns
  end.

(** The parsed arguments: [args.to], [args.subject], [args.body_file]. *)
Record args := Args {
  args_to : string;
  args_subject : string;
  args_body_file : string
}.

Inductive outcome :=
| Parsed (a : args)
| ExitHelp                      (* help on stdout, [SystemExit(0)] *)
| ExitUsage (e : usage_error).  (* usage on stderr, [SystemExit(2)] *)

(** The argument attached to [-h]: [-hh] is [-h -h].  The result is the
    part that is refused, [None] when nothing is. *)
Fixpoint after_h (e : string) : option string :=
  match e with
  | EmptyString => None
  | String c r => if Ascii.eqb c "h" then after_h r else Some e
  end.

Definition missing (v : option string) (d : dest) : list dest :=
  match v with
  | Some _ => []
  | None => [d]
  end.

(** The required options are checked before the unrecognized arguments. *)
Definition finish (ns : namespace) (extras : list string) : outcome :=
  match to ns, subject ns, body_file ns with
  | Some t, Some s, Some b =>
      match extras with
      | [] => Parsed (Args t s b)
      | _ => ExitUsage (ErrUnrecognized extras)
      end
  | t, s, b =>
      ExitUsage (ErrRequired
        (missing t To ++ missing s Subject ++ missing b BodyFile)%list)
  end.

(** [consume_optional], and the plain arguments between the options,
    which no positional takes and which end up in [extras]. *)
Fixpoint consume (ts : list token) (ns : namespace) (extras : list string)
  : outcome :=
  match ts with
  | [] => finish ns extras
  | TArg s :: rest => consume rest ns (extras ++ [s])
  | TSep :: rest => consume rest ns (extras ++ ["--"])
  | TOpt s (None, _, _) :: rest => consume rest ns (extras ++ [s])
  | TOpt _ (Some Help, os, Some e) :: rest =>
      if String.eqb os "-h" && Py.truthy e then
        match after_h e with
        | None => ExitHelp
        | Some x => ExitUsage (ErrIgnoredExplicitArgument x)
        end
      else ExitUsage (ErrIgnoredExplicitArgument e)
  | TOpt _ (Some Help, _, None) :: rest => ExitHelp
  | TOpt _ (Some (Store d), _, Some e) :: rest =>
      consume rest (setattr ns d e) extras
  | TOpt _ (Some (Store d), _, None) :: rest =>
      match rest with
      | TArg v :: rest' => consume rest' (setattr ns d v) extras
      | _ => ExitUsage (ErrExpectedOneArgument d)
      end
  end.

Definition parse_args (argv : list string) : outcome :=
  match tokenize argv with
  | inl e => ExitUsage e
  | inr ts => consume ts (Namespace None None None) []
  end.

(** Some argument is recognised as a use of the option [a]: the option
    string itself, an abbreviation of it, or either with [=value]. *)
Fixpoint option_given (a : action) (argv : list string) : bool :=
  match argv with
  | [] => false
  | s :: rest =>
      if String.eqb s "--" then false
      else
        match parse_optional s with
        | Optional (Some a', _, _) => action_eqb a a' || option_given a rest
        | _ => option_given a rest
        end
  end.

Definition token_for (a : action) (tk : token) : bool :=
  match tk with
  | TOpt _ (Some a', _, _) => action_eqb a a'
  | _ => false
  end.

End Argparse.

(** ** The outside world and the effects of a run *)

(** Exceptions.  [SystemExit] is what [argparse] raises to leave the
    process; it is not an instance of [Exception], so that
    [except Exception] does not catch it.  [Exception cls msg] is an
    instance of the class [cls], a subclass of [Exception], whose [str] is
    [msg]. *)
Inductive exn :=
| SystemExit (code : Z)
| Exception (cls : string) (msg : string).

Definition is_Exception (e : exn) : bool :=
  match e with
  | SystemExit _ => false
  | Exception _ _ => true
  end.

(** [str(e)] *)
Definition str (e : exn) : string :=
  match e with
  | SystemExit _ => EmptyString
  | Exception _ msg => msg
  end.

(** What a call into the outside world answers. *)
Inductive reply (A : Type) :=
| Returns (a : A)
| Raises (cls : string) (msg : string).
Arguments Returns {A} a.
Arguments Raises {A} cls msg.

(** *** [email.message.EmailMessage] *)

Record EmailMessage := {
  headers : list (string * string);
  content : option string
}.

(** [msg.get_all(name)] *)
Definition header (name : string) (m : EmailMessage) : list string :=
  map snd (List.filter (fun h => String.eqb (fst h) name) (headers m)).

(** *** Calls into [ssl] and [smtplib] *)

Inductive net_call :=
| CreateDefaultContext                             (* [ssl.create_default_context()] *)
| SMTP (host : string) (port : Z) (timeout : Z)    (* [smtplib.SMTP(host, port, timeout=...)] *)
| SMTP_SSL (host : string) (port : Z) (timeout : Z)
| Ehlo
| Starttls                                         (* [server.starttls(context=context)] *)
| Login (user password : string)
| SendMessage (msg : EmailMessage)
| Close.                                           (* [__exit__] of the [with] block *)

Inductive stream := Stdout | Stderr.

(** The observable events of a run, in the order they happen. *)
Inductive event :=
| ArgparseHelp                                 (* the help text, on stdout *)
| ArgparseError (e : Argparse.usage_error)     (* usage and error, on stderr *)
| Getenv (name : string)
| OpenRead (path : string)
| Printed (file : stream) (text : string)
| Net (c : net_call) (r : reply unit)
| Traceback (e : exn).                         (* the interpreter's report, on stderr *)

Definition trace : Type := list event.

Record world := World {
  argv : list string;                          (* [sys.argv[1:]] *)
  environ : gmap string string;                (* [os.environ] *)
  file_system : string -> reply string;        (* open the path as text, read it all *)
  server : trace -> net_call -> reply unit     (* the answer to a call, given the run so far *)
}.

(** *** The monad of the program: world, trace and exceptions *)

Inductive result (A : Type) :=
| Return (a : A)
| Raise (e : exn).
Arguments Return {A} a.
Arguments Raise {A} e.

Definition M (A : Type) : Type := world -> trace -> trace * result A.

Definition ret {A} (a : A) : M A := fun _ t => (t, Return a).

Definition bind {A B} (m : M A) (k : A -> M B) : M B :=
  fun w t =>
    match m w t with
    | (t', Return a) => k a w t'
    | (t', Raise e) => (t', Raise e)
    end.

Definition raise {A} (e : exn) : M A := fun _ t => (t, Raise e).

Definition emit (ev : event) : M unit :=
  fun _ t => ((t ++ [ev])%list, Return tt).

Declare Scope py_scope.
Delimit Scope py_scope with py.
Notation "x <- m ;; k" := (bind m (fun x => k))
  (at level 100, m at next level, right associativity) : py_scope.
Notation "m ;; k" := (bind m (fun _ => k))
  (at level 100, right associativity) : py_scope.
Local Open Scope py_scope.

(** [try: m except Exception as e: ...]: the exception is handed to the
    handler, anything that is not an [Exception] goes through. *)
Definition try_ {A} (m : M A) : M (exn + A) :=
  fun w t =>
    match m w t with
    | (t', Return a) => (t', Return (inr a))
    | (t', Raise e) =>
        if is_Exception e then (t', Return (inl e)) else (t', Raise e)
    end.

(** [print(a, b, file=f)]: the arguments separated by a space, then a
    line feed. *)
Definition print_ (a b : string) (f : stream) : M unit :=
  emit (Printed f (a ++ " " ++ b ++ Py.LF)).

(** [p.parse_args()] *)
Definition parse_args : M Argparse.args :=
  fun w t =>
    match Argparse.parse_args (argv w) with
    | Argparse.Parsed a => (t, Return a)
    | Argparse.ExitHelp => ((t ++ [ArgparseHelp])%list, Raise (SystemExit 0))
    | Argparse.ExitUsage e =>
        ((t ++ [ArgparseError e])%list, Raise (SystemExit 2))
    end.

(** [os.environ.get(name, default)] *)
Definition environ_get (name dflt : string) : M string :=
  fun w t =>
    ((t ++ [Getenv name])%list, Return (default dflt (environ w !! name))).

(** [int(s)] *)
Definition int (s : string) : M Z :=
  match Py.int s with
  | inr n => ret n
  | inl msg => raise (Exception "ValueError" msg)
  end.

(** [with open(path, 'r') as f: f.read()] *)
Definition open_read (path : string) : M string :=
  fun w t =>
    ((t ++ [OpenRead path])%list,
     match file_system w path with
     | Returns text => Return text
     | Raises cls msg => Raise (Exception cls msg)
     end).

(** [msg[name] = value]: the default policy refuses a value of more than
    one line.  (It also refuses a second From, To or Subject; the program
    assigns each once, to a new message.) *)
Definition setitem (m : EmailMessage) (name value : string) : M EmailMessage :=
  if (1 <? length (Py.splitlines value))%nat then
    raise (Exception "ValueError"
             "Header values may not contain linefeed or carriage return characters")
  else
    ret {| headers := (headers m ++ [(name, value)])%list;
           content := content m |}.

(** [msg.set_content(body)] *)
Definition set_content (m : EmailMessage) (body : string) : M EmailMessage :=
  ret {| headers := headers m; content := Some body |}.

(** A call into [ssl] or [smtplib], answered by the world. *)
Definition call (c : net_call) : M unit :=
  fun w t =>
    let r := server w t c in
    ((t ++ [Net c r])%list,
     match r with
     | Returns _ => Return tt
     | Raises cls msg => Raise (Exception cls msg)
     end).

(** [with ctor as server: body]: when the constructor returns, the body
    runs and [__exit__] is called however the body ends; an exception of
    [__exit__] replaces the one of the body. *)
Definition with_ (ctor : net_call) (body : M unit) : M unit :=
  fun w t =>
    match call ctor w t with
    | (t1, Raise e) => (t1, Raise e)
    | (t1, Return _) =>
        match body w t1 with
        | (t2, r) =>
            match call Close w t2 with
            | (t3, Raise e') => (t3, Raise e')
            | (t3, Return _) => (t3, r)
            end
        end
    end.

(** ** The program *)

(** Lines 20-25. *)
Record config := Config {
  smtp_host : string;
  smtp_port : Z;
  smtp_user : string;
  smtp_pass : string;
  smtp_from : string;
  starttls : bool
}.

Definition resolve_config : M config :=
  smtp_host <- environ_get "SMTP_HOST" "smtp.gmail.com" ;;
  port <- environ_get "SMTP_PORT" "587" ;;
  smtp_port <- int port ;;
  smtp_user <- environ_get "SMTP_USER" "" ;;
  smtp_pass <- environ_get "SMTP_PASS" "" ;;
  smtp_from <- environ_get "SMTP_FROM"
                 (Py.or_ smtp_user "monitor@example.com") ;;
  tls <- environ_get "SMTP_STARTTLS" "true" ;;
  let starttls := Py.in_tuple (Py.lower tls) ["1"; "true"; "yes"] in
  ret (Config smtp_host smtp_port smtp_user smtp_pass smtp_from starttls).

(** Lines 35-39. *)
Definition build_message (cfg : config) (args : Argparse.args) (body : string)
  : M EmailMessage :=
  let msg := {| headers := []; content := None |} in
  msg <- setitem msg "From" (smtp_from cfg) ;;
  msg <- setitem msg "To" (Argparse.args_to args) ;;
  msg <- setitem msg "Subject" (Argparse.args_subject args) ;;
  set_content msg body.

(** Lines 42-55, the body of the second [try]. *)
Definition transmit (cfg : config) (msg : EmailMessage) : M unit :=
  if starttls cfg then
    call CreateDefaultContext ;;
    with_ (SMTP (smtp_host cfg) (smtp_port cfg) 30)
      (call Ehlo ;;
       call Starttls ;;
       call Ehlo ;;
       (if Py.truthy (smtp_user cfg)
        then call (Login (smtp_user cfg) (smtp_pass cfg)) else ret tt) ;;
       call (SendMessage msg))
  else
    with_ (SMTP_SSL (smtp_host cfg) (smtp_port cfg) 30)
      ((if Py.truthy (smtp_user cfg)
        then call (Login (smtp_user cfg) (smtp_pass cfg)) else ret tt) ;;
       call (SendMessage msg)).

(** [main()], lines 13-60: the value is the one [main] returns. *)
Definition main : M Z :=
  args <- parse_args ;;
  cfg <- resolve_config ;;
  r <- try_ (open_read (Argparse.args_body_file args)) ;;
  match r with
  | inl e => print_ "Error reading body file:" (str e) Stderr ;; ret 3
  | inr body =>
      msg <- build_message cfg args body ;;
      r <- try_ (transmit cfg msg) ;;
      match r with
      | inl e => print_ "SMTP send failed:" (str e) Stderr ;; ret 4
      | inr _ => ret 0
      end
  end.

(** [sys.exit(main())], lines 62-63: the events of the run and the exit
    status of the process.  An exception that nothing catches is reported
    by the interpreter, which exits with status 1. *)
Definition run (w : world) : trace * Z :=
  match main w [] with
  | (t, Return code) => (t, code)
  | (t, Raise (SystemExit code)) => (t, code)
  | (t, Raise e) => ((t ++ [Traceback e])%list, 1)
  end.

(** ** What a run shows *)

Definition exit_status (w : world) : Z := snd (run w).
Definition events (w : world) : trace := fst (run w).

(** The stream an event writes to, if any. *)
Definition writes_to (ev : event) : option stream :=
  match ev with
  | ArgparseHelp => Some Stdout
  | ArgparseError _ => Some Stderr
  | Printed f _ => Some f
  | Traceback _ => Some Stderr
  | Getenv _ | OpenRead _ | Net _ _ => None
  end.

Definition stream_eqb (a b : stream) : bool :=
  match a, b with
  | Stdout, Stdout | Stderr, Stderr => true
  | _, _ => false
  end.

(** The events that write to the stream [f]. *)
Definition output (f : stream) (t : trace) : list event :=
  List.filter (fun ev => match writes_to ev with
                         | Some g => stream_eqb f g
                         | None => false
                         end) t.

(** The lines the program itself prints. *)
Fixpoint printed (t : trace) : list (stream * string) :=
  match t with
  | [] => []
  | Printed f s :: r => (f, s) :: printed r
  | _ :: r => printed r
  end.

(** The calls into [ssl] and [smtplib], with their answers. *)
Fixpoint net_log (t : trace) : list (net_call * reply unit) :=
  match t with
  | [] => []
  | Net c r :: t' => (c, r) :: net_log t'
  | _ :: t' => net_log t'
  end.

Definition net_calls (t : trace) : list net_call := map fst (net_log t).

(** The messages handed to [send_message] and accepted. *)
Fixpoint sent (t : trace) : list EmailMessage :=
  match t with
  | [] => []
  | Net (SendMessage m) (Returns _) :: t' => m :: sent t'
  | _ :: t' => sent t'
  end.

(** The message of the last call that raised. *)
Fixpoint last_failure (t : trace) : option string :=
  match t with
  | [] => None
  | Net _ (Raises _ msg) :: t' =>
      match last_failure t' with
      | Some m => Some m
      | None => Some msg
      end
  | _ :: t' => last_failure t'
  end.

(** [os.environ.get(name, dflt)] as a value. *)
Definition getenv (w : world) (name dflt : string) : string :=
  default dflt (environ w !! name).

(** The configuration a run resolves, when the port is an integer. *)
Definition resolved (w : world) : option config :=
  match resolve_config w [] with
  | (_, Return cfg) => Some cfg
  | (_, Raise _) => None
  end.

(** The value of lines 20-25, given the integer read for the port. *)
Definition config_of (w : world) (port : Z) : config :=
  let user := getenv w "SMTP_USER" "" in
  Config (getenv w "SMTP_HOST" "smtp.gmail.com") port user
    (getenv w "SMTP_PASS" "")
    (getenv w "SMTP_FROM" (Py.or_ user "monitor@example.com"))
    (Py.in_tuple (Py.lower (getenv w "SMTP_STARTTLS" "true"))
       ["1"; "true"; "yes"]).

(** The six look-ups of lines 20-25. *)
Definition config_reads : trace :=
  [ Getenv "SMTP_HOST"; Getenv "SMTP_PORT"; Getenv "SMTP_USER";
    Getenv "SMTP_PASS"; Getenv "SMTP_FROM"; Getenv "SMTP_STARTTLS" ].

Definition returned (e : net_call * reply unit) : bool :=
  match snd e with
  | Returns _ => true
  | Raises _ _ => false
  end.

(** The SMTP session ran and no call of it raised. *)
Definition transmission_completed (t : trace) : bool :=
  match net_log t with
  | [] => false
  | l => forallb returned l
  end.


Definition is_connect (c : net_call) : bool :=
  match c with
  | SMTP _ _ _ | SMTP_SSL _ _ _ => true
  | _ => false
  end.

Definition is_starttls (c : net_call) : bool :=
  match c with
  | Starttls => true
  | _ => false
  end.

Definition is_login (c : net_call) : bool :=
  match c with
  | Login _ _ => true
  | _ => false
  end.

Definition is_send (c : net_call) : bool :=
  match c with
  | SendMessage _ => true
  | _ => false
  end.


(** A header value that [EmailMessage] accepts. *)
Definition single_line (v : string) : bool :=
  negb (1 <? length (Py.splitlines v))%nat.

(** How many calls of a kind a run makes. *)
Definition attempts (p : net_call -> bool) (t : trace) : nat :=
  length (List.filter p (net_calls t)).

(** Once a call has raised, nothing more is called but the closing of the
    session, and nothing at all once the closing has raised. *)
Fixpoint no_retry (t : trace) : bool :=
  match t with
  | [] => true
  | Net c (Raises _ _) :: t' =>
      match c, net_calls t' with
      | _, [] => true
      | Close, _ => false
      | _, [Close] => no_retry t'
      | _, _ => false
      end
  | _ :: t' => no_retry t'
  end.

(** No call of kind [p] comes after a call of kind [q]. *)
Fixpoint none_after (p q : net_call -> bool) (l : list net_call) : bool :=
  match l with
  | [] => true
  | c :: r => (if q c then negb (existsb p r) else true) && none_after p q r
  end.

(** Every call of kind [q] comes after a call of kind [p] that returned. *)
Fixpoint preceded (p q : net_call -> bool) (l : list (net_call * reply unit))
  : bool :=
  match l with
  | [] => true
  | (c, r) :: l' =>
      if q c then false
      else if p c then
        match r with
        | Returns _ => true
        | Raises _ _ => preceded p q l'
        end
      else preceded p q l'
  end.

(** ** Example worlds *)

Definition demo_argv : list string :=
  ["--to"; "a@b.com"; "--subject"; "Disk full"; "--body-file"; "/tmp/b.txt"].

Definition demo_args : Argparse.args :=
  Argparse.Args "a@b.com" "Disk full" "/tmp/b.txt".

Definition demo_files (path : string) : reply string :=
  if String.eqb path "/tmp/b.txt" then Returns "disk at 95%"
  else Raises "FileNotFoundError" "[Errno 2] No such file or directory".

Definition accepting : trace -> net_call -> reply unit :=
  fun _ _ => Returns tt.

Definition refusing : trace -> net_call -> reply unit :=
  fun _ c =>
    if is_connect c
    then Raises "ConnectionRefusedError" "[Errno 111] Connection refused"
    else Returns tt.

(** The scenario of the specification: a mock server on localhost:2525,
    direct TLS. *)
Definition demo_env : gmap string string :=
  {[ "SMTP_HOST" := "localhost"; "SMTP_PORT" := "2525";
     "SMTP_STARTTLS" := "false" ]}.

Definition demo : world := World demo_argv demo_env demo_files accepting.

(** The same with a user and the default STARTTLS mode. *)
Definition demo_user_env : gmap string string :=
  {[ "SMTP_HOST" := "localhost"; "SMTP_PORT" := "2525";
     "SMTP_USER" := "alice"; "SMTP_PASS" := "secret" ]}.

Definition demo_user : world :=
  World demo_argv demo_user_env demo_files accepting.

Definition demo_refused : world :=
  World demo_argv demo_user_env demo_files refusing.

(** A subject of two lines, which [EmailMessage] refuses. *)
Definition two_lines : string := "Disk" ++ Py.LF ++ "full".

Definition demo_two_lines : world :=
  World ["--to"; "a@b.com"; "--subject"; two_lines; "--body-file"; "/tmp/b.txt"]
    demo_env demo_files accepting.

(** The same subject, and a body file that does not exist. *)
Definition demo_no_file : world :=
  World ["--to"; "a@b.com"; "--subject"; two_lines; "--body-file"; "/nowhere"]
    demo_env demo_files accepting.

Definition demo_bad_port : world :=
  World demo_argv {[ "SMTP_PORT" := "smtp" ]} demo_files accepting.

Definition demo_empty_from : world :=
  World demo_argv {[ "SMTP_FROM" := ""; "SMTP_USER" := "alice" ]}
    demo_files accepting.

(** Two environments that differ in SMTP_PASS only, without a user. *)
Definition demo_pass (password : string) : world :=
  World demo_argv (<[ "SMTP_PASS" := password ]> demo_env)
    demo_files accepting.

Definition demo_help : world := World ["--help"] demo_env demo_files accepting.

Definition demo_no_subject : world :=
  World ["--to"; "a@b.com"; "--body-file"; "/tmp/b.txt"]
    demo_env demo_files accepting.

(** ** Further vocabulary *)

Definition is_context (c : net_call) : bool :=
  match c with
  | CreateDefaultContext => true
  | _ => false
  end.

Definition is_ehlo (c : net_call) : bool :=
  match c with
  | Ehlo => true
  | _ => false
  end.

Definition is_close (c : net_call) : bool :=
  match c with
  | Close => true
  | _ => false
  end.

(** A connection has been opened: its constructor returned. *)
Definition connected (t : trace) : bool :=
  existsb (fun e => is_connect (fst e) && returned e) (net_log t).

(** The stage of [main] an event belongs to: argument parsing,
    configuration, body file, SMTP session, report. *)
Definition phase (ev : event) : nat :=
  match ev with
  | ArgparseHelp | ArgparseError _ => 0
  | Getenv _ => 1
  | OpenRead _ => 2
  | Net _ _ => 3
  | Printed _ _ | Traceback _ => 4
  end.

(** The stages of the events never decrease, starting from [k]. *)
Fixpoint ordered_from (k : nat) (t : trace) : bool :=
  match t with
  | [] => true
  | ev :: r => (k <=? phase ev)%nat && ordered_from (phase ev) r
  end.

(** The variables looked up and the files opened, in order. *)
Fixpoint lookups (t : trace) : list string :=
  match t with
  | [] => []
  | Getenv k :: r => k :: lookups r
  | _ :: r => lookups r
  end.

Fixpoint files_opened (t : trace) : list string :=
  match t with
  | [] => []
  | OpenRead p :: r => p :: files_opened r
  | _ :: r => files_opened r
  end.

(** The six variables of the configuration. *)
Definition config_vars : list string :=
  [ "SMTP_HOST"; "SMTP_PORT"; "SMTP_USER"; "SMTP_PASS"; "SMTP_FROM";
    "SMTP_STARTTLS" ].

(** The three header values are accepted by [EmailMessage]. *)
Definition headers_accepted (cfg : config) (a : Argparse.args) : bool :=
  single_line (smtp_from cfg) && single_line (Argparse.args_to a)
  && single_line (Argparse.args_subject a).

(** No character of the string is a line boundary of [str.splitlines]. *)
Fixpoint no_linebreak (s : string) : bool :=
  match s with
  | EmptyString => true
  | String c r => negb (Py.is_linebreak c) && no_linebreak r
  end.

(** The value does not begin with a dash. *)
Definition plain (v : string) : bool :=
  match v with
  | String "-" _ => false
  | _ => true
  end.

(** A use of one of the three options on the command line: the option
    string followed by its value, or the two joined by [=]. *)
Inductive use :=
| Spaced (d : Argparse.dest) (v : string)
| Joined (d : Argparse.dest) (v : string).

Definition option_string (d : Argparse.dest) : string :=
  match d with
  | Argparse.To => "--to"
  | Argparse.Subject => "--subject"
  | Argparse.BodyFile => "--body-file"
  end.

Definition render (u : use) : list string :=
  match u with
  | Spaced d v => [option_string d; v]
  | Joined d v => [option_string d ++ "=" ++ v]
  end.

Definition command_line (l : list use) : list string := concat (map render l).

(** A value given after a space must not look like an option. *)
Definition well_formed (u : use) : bool :=
  match u with
  | Spaced _ v => plain v
  | Joined _ _ => true
  end.

Definition assign (ns : Argparse.namespace) (u : use) : Argparse.namespace :=
  match u with
  | Spaced d v | Joined d v => Argparse.setattr ns d v
  end.

(** The value of the last use of the option [d]. *)
Definition last_value (d : Argparse.dest) (l : list use) : option string :=
  Argparse.attr d
    (fold_left assign l (Argparse.Namespace None None None)).

(** [v] is [pattern] up to the case of the letters A..Z. *)
Fixpoint same_up_to_case (v pattern : string) : bool :=
  match v, pattern with
  | EmptyString, EmptyString => true
  | String c v', String p pattern' =>
      (Ascii.eqb c p
       || (65 <=? Py.code c)%N && (Py.code c <=? 90)%N
          && (Py.code c + 32 =? Py.code p)%N)
      && same_up_to_case v' pattern'
  | _, _ => false
  end.

(** A server on which everything returns but the closing of the
    session. *)
Definition closing_badly : trace -> net_call -> reply unit :=
  fun _ c =>
    if is_close c then Raises "SMTPResponseException" "(421, b'timeout')"
    else Returns tt.

Definition demo_closing_badly : world :=
  World demo_argv demo_env demo_files closing_badly.

(** The message of lines 35-39. *)
Definition message (cfg : config) (a : Argparse.args) (body : string)
  : EmailMessage :=
  {| headers := [ ("From", smtp_from cfg); ("To", Argparse.args_to a);
                  ("Subject", Argparse.args_subject a) ];
     content := Some body |}.

(** The calls of a session in which nothing raises, up to the closing. *)
Definition script (cfg : config) (msg : EmailMessage) : list net_call :=
  ((if starttls cfg
    then [ CreateDefaultContext; SMTP (smtp_host cfg) (smtp_port cfg) 30;
           Ehlo; Starttls; Ehlo ]
    else [ SMTP_SSL (smtp_host cfg) (smtp_port cfg) 30 ])
   ++ (if Py.truthy (smtp_user cfg)
       then [ Login (smtp_user cfg) (smtp_pass cfg) ] else [])
   ++ [ SendMessage msg ])%list.

(** The tokens of a use, as [Argparse.tokenize] finds them. *)
Definition tokens_of (u : use) : list Argparse.token :=
  match u with
  | Spaced d v =>
      [ Argparse.TOpt (option_string d)
          (Some (Argparse.Store d), option_string d, None);
        Argparse.TArg v ]
  | Joined d v =>
      [ Argparse.TOpt (option_string d ++ "=" ++ v)
          (Some (Argparse.Store d), option_string d, Some v) ]
  end.

(** Lower-casing a character gives [p] exactly when the character is [p]
    or the upper-case letter of A..Z that [p] is the lower case of. *)
Definition case_stable (p : ascii) : Prop :=
  forall c,
    Ascii.eqb (Py.lower_char c) p
    = (Ascii.eqb c p
       || (65 <=? Py.code c)%N && (Py.code c <=? 90)%N
          && (Py.code c + 32 =? Py.code p)%N).

Fixpoint all_digits (s : string) : bool :=
  match s with
  | EmptyString => true
  | String c r => Py.is_digit c && all_digits r
  end.

(** The number that the digits of [s] write in base 10, after [acc]. *)
Fixpoint decimal (acc : Z) (s : string) : Z :=
  match s with
  | EmptyString => acc
  | String c r => decimal (10 * acc + Py.digit_value c) r
  end.

(** A character that can occur in a literal that [int] accepts. *)
Definition int_char (c : ascii) : bool :=
  Py.is_digit c || Py.is_int_space c || Ascii.eqb c "_" || Ascii.eqb c "+"
  || Ascii.eqb c "-".

Fixpoint all_int_chars (s : string) : bool :=
  match s with
  | EmptyString => true
  | String c r => int_char c && all_int_chars r
  end.

(** One more variable in the environment of [demo]. *)
Definition demo_other_variable : world :=
  World demo_argv (<[ "HOME" := "/root" ]> demo_env) demo_files accepting.

(** The flag of the mode in mixed case. *)
Definition demo_mixed_case : world :=
  World demo_argv {[ "SMTP_STARTTLS" := "YeS" ]} demo_files accepting.

(** A port of five digits and a leading zero. *)
Definition demo_long_port : world :=
  World demo_argv {[ "SMTP_PORT" := "099999" ]} demo_files accepting.

(** A port written in hexadecimal. *)
Definition demo_hex_port : world :=
  World demo_argv {[ "SMTP_PORT" := "0x24b" ]} demo_files accepting.

(** ** The built-ins and the parser on examples *)

Example int_587 : Py.int "587" = inr 587.
Proof. reflexivity. Qed.

Example int_spaces_and_groups : Py.int " +5_8_7 " = inr 587.
Proof. reflexivity. Qed.

Example int_not_a_number :
  Py.int "smtp" = inl "invalid literal for int() with base 10: 'smtp'".
Proof. reflexivity. Qed.

Example int_empty :
  Py.int "" = inl "invalid literal for int() with base 10: ''".
Proof. reflexivity. Qed.

Example lower_mixed : Py.lower "TrUe" = "true".
Proof. reflexivity. Qed.

Example splitlines_final_line_feed :
  Py.splitlines ("Disk full" ++ Py.LF) = ["Disk full"].
Proof. reflexivity. Qed.

Example splitlines_two_lines :
  Py.splitlines ("Disk" ++ Py.LF ++ "full") = ["Disk"; "full"].
Proof. reflexivity. Qed.

Example parse_demo : Argparse.parse_args demo_argv = Argparse.Parsed demo_args.
Proof. reflexivity. Qed.

Example parse_abbreviated :
  Argparse.parse_args ["--t=a@b.com"; "--s"; "Disk full"; "--body"; "/tmp/b.txt"]
  = Argparse.Parsed demo_args.
Proof. reflexivity. Qed.

Example parse_no_subject :
  Argparse.parse_args ["--to"; "a@b.com"; "--body-file"; "/tmp/b.txt"]
  = Argparse.ExitUsage (Argparse.ErrRequired [Argparse.Subject]).
Proof. reflexivity. Qed.

Example parse_value_missing :
  Argparse.parse_args ["--to"; "--subject"; "s"; "--body-file"; "f"]
  = Argparse.ExitUsage (Argparse.ErrExpectedOneArgument Argparse.To).
Proof. reflexivity. Qed.

Example parse_extra_argument :
  Argparse.parse_args (demo_argv ++ ["now"])%list
  = Argparse.ExitUsage (Argparse.ErrUnrecognized ["now"]).
Proof. reflexivity. Qed.

Example parse_help_after_options :
  Argparse.parse_args (demo_argv ++ ["-h"])%list = Argparse.ExitHelp.
Proof. reflexivity. Qed.

Example run_demo :
  run demo
  = ((config_reads
      ++ [ OpenRead "/tmp/b.txt";
           Net (SMTP_SSL "localhost" 2525 30) (Returns tt);
           Net (SendMessage
                  {| headers := [ ("From", "monitor@example.com");
                                  ("To", "a@b.com");
                                  ("Subject", "Disk full") ];
                     content := Some "disk at 95%" |}) (Returns tt);
           Net Close (Returns tt) ])%list, 0).
Proof. vm_compute. reflexivity. Qed.

Example run_two_lines :
  run demo_two_lines
  = ((config_reads
      ++ [ OpenRead "/tmp/b.txt";
           Traceback
             (Exception "ValueError"
                "Header values may not contain linefeed or carriage return characters") ])%list,
     1).
Proof. vm_compute. reflexivity. Qed.

Example run_demo_user_calls :
  net_calls (events demo_user)
  = [ CreateDefaultContext; SMTP "localhost" 2525 30; Ehlo; Starttls; Ehlo;
      Login "alice" "secret";
      SendMessage
        {| headers := [ ("From", "alice"); ("To", "a@b.com");
                        ("Subject", "Disk full") ];
           content := Some "disk at 95%" |};
      Close ].
Proof. vm_compute. reflexivity. Qed.

(** ** Facts about the built-ins and the vocabulary *)

Lemma truthy_true (s : string) : Py.truthy s = true <-> s <> "".
Proof. destruct s; cbn; split; congruence. Qed.



Lemma header_inv (m : EmailMessage) (f t s : string) :
  headers m = [("From", f); ("To", t); ("Subject", s)] ->
  header "From" m = [f] /\ header "To" m = [t] /\ header "Subject" m = [s].
Proof. unfold header. intros ->. cbn. auto. Qed.

(** [none_after] says what its name says. *)
Lemma none_after_spec (p q : net_call -> bool) (l : list net_call) :
  none_after p q l = true ->
  forall l1 c l2, l = (l1 ++ c :: l2)%list -> q c = true ->
  forall c', In c' l2 -> p c' = false.
Proof.
  induction l as [|x l IH]; intros Hl l1 c l2 Heq Hq c' Hin.
  - destruct l1; discriminate.
  - cbn in Hl. apply andb_prop in Hl as [Hx Hl].
    destruct l1 as [|y l1]; cbn in Heq; injection Heq as -> ->.
    + rewrite Hq in Hx.
      destruct (p c') eqn:Hp; [|reflexivity].
      assert (Hex : existsb p l2 = true)
        by (apply existsb_exists; exists c'; split; assumption).
      rewrite Hex in Hx. discriminate.
    + eapply IH; eauto.
Qed.

(** [preceded] says what its name says. *)
Lemma preceded_spec (p q : net_call -> bool)
    (l : list (net_call * reply unit)) :
  preceded p q l = true ->
  forall l1 c r l2, l = (l1 ++ (c, r) :: l2)%list -> q c = true ->
  exists c', In (c', Returns tt) l1 /\ p c' = true.
Proof.
  induction l as [|[x rx] l IH]; intros Hl l1 c r l2 Heq Hq.
  - destruct l1; discriminate.
  - cbn in Hl.
    destruct l1 as [|y l1]; cbn in Heq; inversion Heq; subst.
    + rewrite Hq in Hl. discriminate.
    + destruct (q x); [discriminate|].
      destruct (p x) eqn:Hp.
      * destruct rx as [[]|cls msg].
        -- exists x. split; [now left|assumption].
        -- destruct (IH Hl l1 c r l2 eq_refl Hq) as (c' & Hin & Hp').
           exists c'. split; [now right|assumption].
      * destruct (IH Hl l1 c r l2 eq_refl Hq) as (c' & Hin & Hp').
        exists c'. split; [now right|assumption].
Qed.

(** ** The parser without one of the required options *)

Section Missing.

Import Argparse.

Lemma token_for_map_TArg (a : action) (l : list string) :
  existsb (token_for a) (map TArg l) = false.
Proof. induction l; cbn; auto. Qed.

(** The options found by [tokenize] are the ones [option_given] finds. *)
Lemma tokenize_given (a : action) (argv : list string) (ts : list token) :
  tokenize argv = inr ts -> existsb (token_for a) ts = option_given a argv.
Proof.
  revert ts. induction argv as [|s rest IH]; intros ts; cbn.
  - intros [= <-]. reflexivity.
  - destruct (String.eqb s "--").
    + intros [= <-]. cbn. apply token_for_map_TArg.
    + destruct (parse_optional s) as [|[[[a'|] os] ex]|];
        try discriminate;
        destruct (tokenize rest) as [e|ts']; try discriminate;
        intros [= <-]; cbn; rewrite (IH ts' eq_refl); reflexivity.
Qed.

Lemma attr_setattr_ne (ns : namespace) (d d' : dest) (v : string) :
  dest_eqb d d' = false -> attr d (setattr ns d' v) = attr d ns.
Proof. destruct d, d'; cbn; congruence. Qed.

Lemma finish_missing (ns : namespace) (extras : list string) (d : dest) :
  attr d ns = None -> exists e, finish ns extras = ExitUsage e.
Proof.
  unfold finish. destruct ns as [[t|] [s|] [b|]], d; cbn; try discriminate;
    intros _; eauto.
Qed.

(** As long as the option [d] has not been stored and is not among the
    remaining tokens, the parser ends with a usage error, or with the help
    text if a help option is among the tokens.  The induction is on a
    bound of the number of tokens: an option and its argument are two
    tokens. *)
Lemma consume_missing (d : dest) (n : nat) :
  forall ts ns extras,
    (length ts <= n)%nat ->
    existsb (token_for (Store d)) ts = false ->
    attr d ns = None ->
    (exists e, consume ts ns extras = ExitUsage e)
    \/ (consume ts ns extras = ExitHelp
        /\ existsb (token_for Help) ts = true).
Proof.
  induction n as [|n IH]; intros ts ns extras Hlen Hno Hattr.
  - destruct ts; [|cbn in Hlen; lia]. left.
    now apply (finish_missing _ _ d).
  - destruct ts as [|tk rest]; [left; now apply (finish_missing _ _ d)|].
    cbn in Hlen.
    assert (Hrest : forall ns' extras',
               attr d ns' = None ->
               existsb (token_for (Store d)) rest = false ->
               (exists e, consume rest ns' extras' = ExitUsage e)
               \/ (consume rest ns' extras' = ExitHelp
                   /\ existsb (token_for Help) (tk :: rest) = true)).
    { intros ns' extras' Hns' Hr.
      destruct (IH rest ns' extras' ltac:(lia) Hr Hns') as [?|[? Hh]];
        [now left|right]. split; [assumption|].
      cbn. rewrite Hh. apply orb_true_r. }
    destruct tk as [s| |s [[[[|d']|] os] [e|]]]; cbn in Hno |- *.
    + now apply Hrest.
    + now apply Hrest.
    + destruct (String.eqb os "-h" && Py.truthy e); [|left; eauto].
      destruct (after_h e); [left; eauto|right; auto].
    + right; auto.
    + apply orb_false_elim in Hno as [Hd Hno].
      apply Hrest; [|assumption]. now rewrite attr_setattr_ne.
    + apply orb_false_elim in Hno as [Hd Hno].
      destruct rest as [|[v| |s' t'] rest']; try (left; eauto; fail).
      cbn in Hno, Hlen.
      destruct (IH rest' (setattr ns d' v) extras ltac:(lia) Hno
                  ltac:(now rewrite attr_setattr_ne)) as [?|[? Hh]];
        [now left|right]. split; [assumption|]. cbn. exact Hh.
    + now apply Hrest.
    + now apply Hrest.
Qed.

Lemma parse_args_missing (d : dest) (argv : list string) :
  option_given (Store d) argv = false ->
  (exists e, Argparse.parse_args argv = ExitUsage e)
  \/ (Argparse.parse_args argv = ExitHelp /\ option_given Help argv = true).
Proof.
  intros Hno. unfold Argparse.parse_args.
  destruct (tokenize argv) as [e|ts] eqn:Htok; [left; eauto|].
  rewrite <- (tokenize_given _ _ _ Htok) in Hno.
  rewrite <- (tokenize_given Help _ _ Htok).
  apply (consume_missing d (length ts));
    [lia | assumption | destruct d; reflexivity].
Qed.

End Missing.

(** ** The stages of [main] *)

Section Stages.

Variable w : world.

Lemma resolve_config_eq (t : trace) :
  resolve_config w t =
  match Py.int (getenv w "SMTP_PORT" "587") with
  | inr n => ((t ++ config_reads)%list, Return (config_of w n))
  | inl m =>
      ((t ++ [Getenv "SMTP_HOST"; Getenv "SMTP_PORT"])%list,
       Raise (Exception "ValueError" m))
  end.
Proof.
  unfold resolve_config, bind, environ_get, int, getenv, config_of.
  destruct (Py.int _) as [m|n]; cbn [ret raise];
    repeat rewrite <- app_assoc; reflexivity.
Qed.

Lemma resolved_eq :
  resolved w =
  match Py.int (getenv w "SMTP_PORT" "587") with
  | inr n => Some (config_of w n)
  | inl _ => None
  end.
Proof.
  unfold resolved. rewrite resolve_config_eq.
  destruct (Py.int _); reflexivity.
Qed.

Lemma resolved_inv (cfg : config) :
  resolved w = Some cfg ->
  exists n, Py.int (getenv w "SMTP_PORT" "587") = inr n /\ cfg = config_of w n.
Proof.
  rewrite resolved_eq. destruct (Py.int _) as [m|n]; [discriminate|].
  intros [= <-]. eauto.
Qed.

(** Building the message touches neither the world nor the trace. *)
Lemma build_message_pure cfg a body (w' : world) (t : trace) :
  build_message cfg a body w' t = (t, snd (build_message cfg a body w [])).
Proof.
  unfold build_message, bind, setitem, set_content.
  repeat (match goal with
          | |- context [if ?b then _ else _] => destruct b
          end; cbn [ret raise fst snd]); reflexivity.
Qed.

Lemma build_message_inv cfg a body t t' r :
  build_message cfg a body w t = (t', r) ->
  t' = t
  /\ match r with
     | Return msg =>
         headers msg = [ ("From", smtp_from cfg);
                         ("To", Argparse.args_to a);
                         ("Subject", Argparse.args_subject a) ]
         /\ content msg = Some body
     | Raise e => exists m, e = Exception "ValueError" m
     end.
Proof.
  unfold build_message, bind, setitem, set_content.
  repeat (match goal with
          | |- context [if ?b then _ else _] => destruct b
          end; cbn [ret raise]);
    intros [= <- <-]; split; eauto.
Qed.

Lemma build_message_from cfg cfg' a body :
  smtp_from cfg = smtp_from cfg' ->
  build_message cfg a body = build_message cfg' a body.
Proof. unfold build_message. now intros ->. Qed.

(** Without a user, the session depends on the host, the port, the mode
    and the server only. *)
Lemma transmit_no_user cfg cfg' msg (w' : world) t :
  smtp_user cfg = "" -> smtp_user cfg' = "" ->
  smtp_host cfg = smtp_host cfg' -> smtp_port cfg = smtp_port cfg' ->
  starttls cfg = starttls cfg' ->
  server w = server w' ->
  transmit cfg msg w t = transmit cfg' msg w' t.
Proof.
  intros Hu Hu' Hh Hp Htls Hsrv.
  unfold transmit. rewrite Hu, Hu', Hh, Hp, Htls. cbn [Py.truthy].
  destruct (starttls cfg'); unfold with_, bind, call; rewrite Hsrv;
    reflexivity.
Qed.

Lemma build_message_ok cfg a body t :
  single_line (smtp_from cfg) = true ->
  single_line (Argparse.args_to a) = true ->
  single_line (Argparse.args_subject a) = true ->
  exists msg, build_message cfg a body w t = (t, Return msg).
Proof.
  unfold single_line, build_message, bind, setitem, set_content.
  intros Hf Ht Hs.
  apply negb_true_iff in Hf, Ht, Hs. rewrite Hf, Ht, Hs.
  cbn [ret]. eauto.
Qed.

Variable a : Argparse.args.
Hypothesis Hparse : Argparse.parse_args (argv w) = Argparse.Parsed a.

(** [main] once the arguments are parsed, stage by stage. *)
Lemma main_eq :
  main w [] =
  match Py.int (getenv w "SMTP_PORT" "587") with
  | inl m =>
      ([Getenv "SMTP_HOST"; Getenv "SMTP_PORT"],
       Raise (Exception "ValueError" m))
  | inr n =>
      let cfg := config_of w n in
      let path := Argparse.args_body_file a in
      let t0 := (config_reads ++ [OpenRead path])%list in
      match file_system w path with
      | Raises cls msg =>
          ((t0 ++ [Printed Stderr
                     ("Error reading body file:" ++ " " ++ msg ++ Py.LF)])%list,
           Return 3)
      | Returns body =>
          match build_message cfg a body w t0 with
          | (_, Raise e) => (t0, Raise e)
          | (_, Return msg) =>
              match transmit cfg msg w t0 with
              | (t, Return _) => (t, Return 0)
              | (t, Raise e) =>
                  if is_Exception e then
                    ((t ++ [Printed Stderr
                              ("SMTP send failed:" ++ " " ++ str e ++ Py.LF)])%list,
                     Return 4)
                  else (t, Raise e)
              end
          end
      end
  end.
Proof.
  unfold main, bind at 1. unfold parse_args. rewrite Hparse.
  unfold bind at 1. rewrite resolve_config_eq.
  destruct (Py.int _) as [m|n]; [reflexivity|].
  cbn [app]. cbv zeta. unfold bind at 1, try_ at 1, open_read.
  destruct (file_system w _) as [body|cls msg]; cbn [is_Exception].
  - unfold bind at 1.
    rewrite build_message_pure.
    destruct (snd (build_message _ a body w [])) as [msg|e];
      [|reflexivity].
    unfold bind at 1, try_ at 1.
    destruct (transmit _ msg w _) as [t [[]|e]]; [reflexivity|].
    destruct (is_Exception e); reflexivity.
  - reflexivity.
Qed.

(** With header values of one line and a server that accepts every
    call, the session completes. *)
Lemma accepted_session_completes (n : Z) (body : string) :
  Py.int (getenv w "SMTP_PORT" "587") = inr n ->
  file_system w (Argparse.args_body_file a) = Returns body ->
  single_line (smtp_from (config_of w n)) = true ->
  single_line (Argparse.args_to a) = true ->
  single_line (Argparse.args_subject a) = true ->
  (forall t c, server w t c = Returns tt) ->
  transmission_completed (events w) = true.
Proof.
  intros Hint Hfile Hf Ht Hs Hserver.
  unfold events, run. rewrite main_eq, Hint. cbv zeta. rewrite Hfile.
  destruct (build_message_ok (config_of w n) a body
              (config_reads ++ [OpenRead (Argparse.args_body_file a)])%list
              Hf Ht Hs) as [msg ->].
  unfold transmit, with_, bind, call, ret.
  destruct (starttls _), (Py.truthy _); rewrite !Hserver; reflexivity.
Qed.

End Stages.

(** ** Symbolic execution of a run

    [main] is a straight-line program: a run is determined by the answer
    of the world at each step, and the properties below are checked on
    every path. *)

(** Case analysis on the answer to the next call of the session. *)
Ltac answer :=
  match goal with
  | |- context [match server ?w ?t ?c with _ => _ end] =>
      lazymatch t with
      | context [server] => fail
      | _ => destruct (server w t c) as [[]|? ?] eqn:?
      end
  end.

Ltac session :=
  unfold transmit, with_, bind, call, ret;
  repeat match goal with
         | |- context [starttls ?c] => destruct (starttls c) eqn:?
         | |- context [Py.truthy ?u] => destruct (Py.truthy u) eqn:?
         end;
  repeat (cbv zeta; answer; cbn [fst snd]).

(** All the paths of [run w]. *)
Ltac run_paths w :=
  unfold events, exit_status, run;
  let Hp := fresh "Hparse" in
  destruct (Argparse.parse_args (argv w)) as [?a| |?e] eqn:Hp;
  [ rewrite (main_eq w _ Hp); cbv zeta;
    destruct (Py.int (getenv w "SMTP_PORT" "587")) as [?m|?n] eqn:?;
    [ | match goal with
        | |- context [file_system w ?p] =>
            destruct (file_system w p) as [?body|?cls ?msg] eqn:?
        end;
        [ match goal with
          | |- context [build_message ?c ?a ?b ?w ?t] =>
              let Hb := fresh "Hbuild" in
              destruct (build_message c a b w t) as [? [?msg|?e]] eqn:Hb;
              apply build_message_inv in Hb;
              [ destruct Hb as [_ [? ?]]; session
              | destruct Hb as [_ [? ->]] ]
          end
        | ] ]
  | unfold main, bind, parse_args; rewrite Hp
  | unfold main, bind, parse_args; rewrite Hp ];
  cbn [fst snd app is_Exception str config_reads];
  simplify_eq.

(** Membership in the calls of a path: one case per call. *)
Ltac each_call H :=
  repeat (destruct H as [H|H];
          [try discriminate H; try (inversion H; subst; clear H)|]);
  try destruct H.

(** A path on which no call raised has no failure in its log. *)
Ltac no_failure H :=
  repeat (destruct H as [H|H]; [discriminate H|]); destruct H.

(** ** The claims *)



(** C2: when the arguments parse, the port is an integer and opening or
    reading the body file raises an exception, whatever its class, the run
    consists of the six look-ups, the attempt to read the file and one line
    on stderr, "Error reading body file:" followed by the text of the
    exception; the exit status is 3.  Nothing is called in [ssl] or
    [smtplib], and the headers are not assigned: the outcome does not
    depend on whether [EmailMessage] would accept them (it refuses the
    subject of [demo_no_file], see [run_two_lines]). *)
Theorem C2_body_file_error (w : world) (a : Argparse.args) (n : Z)
    (cls msg : string) :
  Argparse.parse_args (argv w) = Argparse.Parsed a ->
  Py.int (getenv w "SMTP_PORT" "587") = inr n ->
  file_system w (Argparse.args_body_file a) = Raises cls msg ->
  run w = ((config_reads
            ++ [OpenRead (Argparse.args_body_file a);
                Printed Stderr ("Error reading body file: " ++ msg ++ Py.LF)])%list,
           3)
  /\ exit_status w = 3
  /\ printed (events w)
     = [(Stderr, "Error reading body file: " ++ msg ++ Py.LF)]
  /\ output Stdout (events w) = []
  /\ net_log (events w) = [].
Proof.
  intros Hparse Hint Hfile.
  assert (Hrun : run w = ((config_reads
            ++ [OpenRead (Argparse.args_body_file a);
                Printed Stderr ("Error reading body file: " ++ msg ++ Py.LF)])%list,
           3)).
  { unfold run. rewrite (main_eq w a Hparse), Hint. cbv zeta.
    rewrite Hfile. reflexivity. }
  unfold exit_status, events. rewrite Hrun. cbn. auto.
Qed.

Lemma C2_body_file_error_witness :
  exit_status demo_no_file = 3
  /\ printed (events demo_no_file)
     = [(Stderr, "Error reading body file: [Errno 2] No such file or directory"
                 ++ Py.LF)]
  /\ net_log (events demo_no_file) = [].
Proof.
  destruct (C2_body_file_error demo_no_file
              (Argparse.Args "a@b.com" two_lines "/nowhere") 2525
              "FileNotFoundError" "[Errno 2] No such file or directory")
    as (_ & Hexit & Hprinted & _ & Hnet); [vm_compute; reflexivity ..|].
  split; [exact Hexit | split; [exact Hprinted | exact Hnet]].
Defined.

(** C3: when a call of the SMTP session raises (creating the TLS context,
    connecting, EHLO, STARTTLS, login, sending or closing), whatever the
    class of the exception, the exit status is 4 and the last event of the
    run is the one line the program prints, on stderr: "SMTP send failed:"
    followed by the text of the exception that left the session, which is
    the one of the last call that raised.  Nothing is written to stdout.
    No step is retried: after a call has raised nothing is called but the
    closing of the session, and the run connects, upgrades, logs in and
    sends at most once. *)
Theorem C3_smtp_failure (w : world) (c : net_call) (cls msg : string) :
  In (c, Raises cls msg) (net_log (events w)) ->
  exit_status w = 4
  /\ (exists m,
        last_failure (events w) = Some m
        /\ printed (events w) = [(Stderr, "SMTP send failed: " ++ m ++ Py.LF)]
        /\ last (events w)
           = Some (Printed Stderr ("SMTP send failed: " ++ m ++ Py.LF))
        /\ output Stderr (events w)
           = [Printed Stderr ("SMTP send failed: " ++ m ++ Py.LF)]
        /\ output Stdout (events w) = [])
  /\ no_retry (events w) = true
  /\ (attempts is_connect (events w) <= 1)%nat
  /\ (attempts is_starttls (events w) <= 1)%nat
  /\ (attempts is_login (events w) <= 1)%nat
  /\ (attempts is_send (events w) <= 1)%nat.
Proof.
  run_paths w; cbn; intros Hin; clear - Hin.
  all: try (exfalso; solve [no_failure Hin]).
  all: clear Hin.
  all: split; [reflexivity|]; split; [|repeat split; lia].
  all: eexists; split; [reflexivity|].
  all: repeat split.
Qed.

Lemma C3_smtp_failure_witness :
  exit_status demo_refused = 4
  /\ printed (events demo_refused)
     = [(Stderr, "SMTP send failed: [Errno 111] Connection refused" ++ Py.LF)].
Proof.
  destruct (C3_smtp_failure demo_refused (SMTP "localhost" 2525 30)
              "ConnectionRefusedError" "[Errno 111] Connection refused")
    as (Hexit & (m & Hm & Hprinted & _) & _); [vm_compute; tauto|].
  split; [exact Hexit|].
  rewrite Hprinted. vm_compute in Hm. injection Hm as <-. reflexivity.
Defined.

(** C4, as amended: the resolved [smtp_from] is the value of SMTP_FROM
    whenever that variable is set, even to the empty string; when it is
    not set, it is the value of SMTP_USER if that is set and not empty,
    and "monitor@example.com" otherwise.  It is not empty unless SMTP_FROM
    is set to the empty string. *)
Theorem C4_smtp_from (w : world) (cfg : config) :
  resolved w = Some cfg ->
  smtp_from cfg
  = match environ w !! "SMTP_FROM" with
    | Some v => v
    | None =>
        match environ w !! "SMTP_USER" with
        | Some u => if Py.truthy u then u else "monitor@example.com"
        | None => "monitor@example.com"
        end
    end
  /\ (environ w !! "SMTP_FROM" <> Some "" -> smtp_from cfg <> "").
Proof.
  intros (n & _ & ->)%resolved_inv.
  cbn [smtp_from config_of]. unfold getenv, Py.or_.
  destruct (environ w !! "SMTP_FROM") as [v|]; cbn.
  - split; [reflexivity|]. congruence.
  - destruct (environ w !! "SMTP_USER") as [u|]; cbn.
    + split; [reflexivity|]. intros _.
      destruct (Py.truthy u) eqn:Hu; [now apply truthy_true|discriminate].
    + split; [reflexivity|discriminate].
Qed.

Lemma C4_smtp_from_witness :
  smtp_from (Config "localhost" 2525 "alice" "secret" "alice" true) = "alice"
  /\ smtp_from (Config "localhost" 2525 "alice" "secret" "alice" true) <> "".
Proof.
  destruct (C4_smtp_from demo_user
              (Config "localhost" 2525 "alice" "secret" "alice" true))
    as [Hfrom Hnonempty]; [vm_compute; reflexivity|].
  split; [exact Hfrom|].
  apply Hnonempty. vm_compute. discriminate.
Defined.

(** C4 as stated fails: with SMTP_FROM set to the empty string the
    resolved [smtp_from] is empty, although SMTP_USER is set. *)
Lemma C4_counterexample :
  exists cfg,
    resolved demo_empty_from = Some cfg
    /\ smtp_user cfg = "alice"
    /\ smtp_from cfg = "".
Proof.
  eexists. split; [vm_compute; reflexivity|]. split; reflexivity.
Qed.



(** C6: when the arguments parse and SMTP_PORT is set to a string that
    [int] refuses, the [ValueError] of line 21 is caught by neither [try]:
    the run ends after the second look-up with the interpreter's report of
    the exception and exit status 1, which is neither 0 nor 3 nor 4; the
    program prints neither diagnostic, reads no file and calls nothing in
    [ssl] or [smtplib]. *)
Theorem C6_non_numeric_port (w : world) (a : Argparse.args) (s m : string) :
  Argparse.parse_args (argv w) = Argparse.Parsed a ->
  environ w !! "SMTP_PORT" = Some s ->
  Py.int s = inl m ->
  run w = ([Getenv "SMTP_HOST"; Getenv "SMTP_PORT";
            Traceback (Exception "ValueError" m)], 1)
  /\ exit_status w <> 0 /\ exit_status w <> 3 /\ exit_status w <> 4
  /\ printed (events w) = []
  /\ net_log (events w) = [].
Proof.
  intros Hparse Hport Hint.
  assert (Hrun : run w = ([Getenv "SMTP_HOST"; Getenv "SMTP_PORT";
                           Traceback (Exception "ValueError" m)], 1)).
  { unfold run. rewrite (main_eq w a Hparse).
    unfold getenv. rewrite Hport. cbn [from_option id]. rewrite Hint.
    reflexivity. }
  unfold exit_status, events. rewrite Hrun. cbn.
  repeat split; discriminate.
Qed.

Lemma C6_non_numeric_port_witness :
  run demo_bad_port
  = ([Getenv "SMTP_HOST"; Getenv "SMTP_PORT";
      Traceback (Exception "ValueError"
                   "invalid literal for int() with base 10: 'smtp'")], 1)
  /\ exit_status demo_bad_port <> 0 /\ exit_status demo_bad_port <> 3
  /\ exit_status demo_bad_port <> 4
  /\ printed (events demo_bad_port) = []
  /\ net_log (events demo_bad_port) = [].
Proof.
  apply (C6_non_numeric_port demo_bad_port demo_args "smtp");
    vm_compute; reflexivity.
Defined.



(** C8, as amended: when no argument is recognised as one of the required
    options, the process exits during argument parsing: the run has a
    single event, written by [argparse], so that no variable has been
    looked up, no file opened and nothing called in [ssl] or [smtplib].
    The exit status is 2, with the usage error on stderr, unless an
    argument is recognised as the help option; then it is either that, or
    the help text on stdout with exit status 0. *)
Theorem C8_missing_option (w : world) (d : Argparse.dest) :
  Argparse.option_given (Argparse.Store d) (argv w) = false ->
  ((exists e, run w = ([ArgparseError e], 2))
   \/ (run w = ([ArgparseHelp], 0)
       /\ Argparse.option_given Argparse.Help (argv w) = true))
  /\ (Argparse.option_given Argparse.Help (argv w) = false ->
      exists e, run w = ([ArgparseError e], 2)).
Proof.
  intros Hmissing.
  assert (Hrun : (exists e, run w = ([ArgparseError e], 2))
                 \/ (run w = ([ArgparseHelp], 0)
                     /\ Argparse.option_given Argparse.Help (argv w) = true)).
  { destruct (parse_args_missing d (argv w) Hmissing) as [[e He]|[He Hh]].
    - left. exists e. unfold run, main, bind, parse_args. now rewrite He.
    - right. split; [|assumption].
      unfold run, main, bind, parse_args. now rewrite He. }
  split; [exact Hrun|].
  intros Hnohelp. destruct Hrun as [?|[_ Hh]]; [assumption|congruence].
Qed.

Lemma C8_missing_option_witness :
  exists e, run demo_no_subject = ([ArgparseError e], 2).
Proof.
  destruct (C8_missing_option demo_no_subject Argparse.Subject)
    as [_ Husage]; [vm_compute; reflexivity|].
  apply Husage. vm_compute. reflexivity.
Defined.

(** C8 as stated fails: with the single argument [--help] the three
    required options are missing, and the exit status is 0. *)
Lemma C8_counterexample :
  Argparse.option_given (Argparse.Store Argparse.To) (argv demo_help) = false
  /\ Argparse.option_given (Argparse.Store Argparse.Subject) (argv demo_help)
     = false
  /\ Argparse.option_given (Argparse.Store Argparse.BodyFile) (argv demo_help)
     = false
  /\ run demo_help = ([ArgparseHelp], 0)
  /\ exit_status demo_help <> 2.
Proof. vm_compute. repeat split; discriminate. Qed.

(** C9: when SMTP_FROM is set to the empty string, the resolved
    [smtp_from] is the empty string, and it is the From header of every
    message the run hands to [send_message].  More generally [smtp_from]
    is the value of SMTP_FROM whenever the variable is set; SMTP_USER and
    "monitor@example.com" are used only when it is not set. *)
Theorem C9_empty_from (w : world) (cfg : config) :
  resolved w = Some cfg ->
  (environ w !! "SMTP_FROM" = Some "" ->
   smtp_from cfg = ""
   /\ forall m r, In (SendMessage m, r) (net_log (events w)) ->
        header "From" m = [""])
  /\ (forall v, environ w !! "SMTP_FROM" = Some v -> smtp_from cfg = v)
  /\ (environ w !! "SMTP_FROM" = None ->
      smtp_from cfg = Py.or_ (smtp_user cfg) "monitor@example.com").
Proof.
  intros (n & Hint & ->)%resolved_inv.
  assert (Hset : forall v, environ w !! "SMTP_FROM" = Some v ->
                           smtp_from (config_of w n) = v).
  { intros v Hv. cbn [smtp_from config_of]. unfold getenv. now rewrite Hv. }
  split; [|split].
  - intros Hempty. split; [now apply Hset|].
    apply Hset in Hempty. revert Hempty.
    run_paths w; cbn [net_log In]; intros Hfrom m' r Hin; try tauto.
    all: each_call Hin.
    all: match goal with
         | H : headers _ = _ |- _ =>
             destruct (header_inv _ _ _ _ H) as (-> & _ & _)
         end; now rewrite Hfrom.
  - assumption.
  - intros Hv. cbn [smtp_from smtp_user config_of]. unfold getenv.
    now rewrite Hv.
Qed.

Lemma C9_empty_from_witness :
  smtp_from (Config "smtp.gmail.com" 587 "alice" "" "" true) = ""
  /\ map (header "From") (sent (events demo_empty_from)) = [[""]].
Proof.
  destruct (C9_empty_from demo_empty_from
              (Config "smtp.gmail.com" 587 "alice" "" "" true))
    as (Hempty & _); [vm_compute; reflexivity|].
  destruct Hempty as [Hfrom Hheader]; [vm_compute; reflexivity|].
  split; [exact Hfrom|].
  vm_compute. reflexivity.
Defined.

(** C10: two runs with the same arguments, the same files, the same
    server and environments that differ at most in SMTP_PASS, in which
    SMTP_USER is not set or empty, are the same run: the same events in the
    same order, among them the same calls with the same message, and the
    same exit status.  Neither logs in, and the message is built in the
    same way from the two configurations. *)
Theorem C10_password_unused (w1 w2 : world) :
  argv w1 = argv w2 ->
  file_system w1 = file_system w2 ->
  server w1 = server w2 ->
  delete "SMTP_PASS" (environ w1) = delete "SMTP_PASS" (environ w2) ->
  getenv w1 "SMTP_USER" "" = "" ->
  run w1 = run w2
  /\ attempts is_login (events w1) = 0%nat
  /\ attempts is_login (events w2) = 0%nat
  /\ (forall cfg1 cfg2 a body,
        resolved w1 = Some cfg1 -> resolved w2 = Some cfg2 ->
        build_message cfg1 a body = build_message cfg2 a body).
Proof.
  intros Hargv Hfs Hsrv Hdel Huser.
  assert (Hagree : forall k d,
             k <> "SMTP_PASS" -> getenv w2 k d = getenv w1 k d).
  { intros k d Hk. unfold getenv.
    rewrite <- (lookup_delete_ne (environ w1) "SMTP_PASS" k) by congruence.
    rewrite <- (lookup_delete_ne (environ w2) "SMTP_PASS" k) by congruence.
    now rewrite Hdel. }
  assert (Huser2 : getenv w2 "SMTP_USER" "" = "").
  { rewrite Hagree; [assumption|discriminate]. }
  assert (Hnologin : forall w, getenv w "SMTP_USER" "" = "" ->
                               attempts is_login (events w) = 0%nat).
  { clear. intros w Hu. run_paths w; try reflexivity.
    all: match goal with
         | H : Py.truthy (smtp_user (config_of _ _)) = true |- _ =>
             cbn [smtp_user config_of] in H; rewrite Hu in H; discriminate H
         end. }
  assert (Hfrom : forall n,
             smtp_from (config_of w1 n) = smtp_from (config_of w2 n)).
  { intros n. cbn [smtp_from config_of].
    rewrite (Hagree "SMTP_USER"), (Hagree "SMTP_FROM") by discriminate.
    reflexivity. }
  split; [|split; [|split]]; auto.
  - unfold run. f_equal.
    destruct (Argparse.parse_args (argv w1)) as [a| |e] eqn:Hp.
    + rewrite (main_eq w1 a Hp).
      rewrite Hargv in Hp. rewrite (main_eq w2 a Hp).
      rewrite Hagree by discriminate.
      destruct (Py.int _) as [m|n]; [reflexivity|]. cbv zeta.
      rewrite <- Hfs.
      destruct (file_system w1 _) as [body|cls msg]; [|reflexivity].
      rewrite (build_message_pure w1 (config_of w2 n)).
      rewrite (build_message_pure w1 (config_of w1 n)).
      rewrite <- (build_message_from _ _ a body (Hfrom n)).
      destruct (snd (build_message (config_of w1 n) a body w1 []))
        as [msg|e]; [|reflexivity].
      rewrite (transmit_no_user w1 (config_of w1 n) (config_of w2 n) msg w2);
        [reflexivity | assumption | assumption | ..|assumption].
      * cbn [smtp_host config_of]. now rewrite Hagree by discriminate.
      * reflexivity.
      * cbn [starttls config_of]. now rewrite Hagree by discriminate.
    + unfold main, bind, parse_args. rewrite <- Hargv, Hp. reflexivity.
    + unfold main, bind, parse_args. rewrite <- Hargv, Hp. reflexivity.
  - intros cfg1 cfg2 a body (n1 & _ & ->)%resolved_inv
      (n2 & _ & ->)%resolved_inv.
    apply build_message_from. cbn [smtp_from config_of].
    rewrite (Hagree "SMTP_USER"), (Hagree "SMTP_FROM") by discriminate.
    reflexivity.
Qed.

Lemma C10_password_unused_witness :
  run (demo_pass "secret") = run (demo_pass "hunter2")
  /\ attempts is_login (events (demo_pass "secret")) = 0%nat.
Proof.
  destruct (C10_password_unused (demo_pass "secret") (demo_pass "hunter2"))
    as (Hrun & Hnone & _); [vm_compute; reflexivity ..|].
  split; [exact Hrun | exact Hnone].
Defined.

(** ** Further properties of the program *)

(** *** The exit status and what it tells *)

Lemma build_message_result (w : world) cfg a body t :
  build_message cfg a body w t
  = (t, if headers_accepted cfg a
        then Return (message cfg a body)
        else Raise (Exception "ValueError"
               "Header values may not contain linefeed or carriage return characters")).
Proof.
  unfold headers_accepted, single_line, build_message, bind, setitem,
    set_content, message.
  repeat (match goal with
          | |- context [if (1 <? ?n)%nat then _ else _] =>
              destruct (1 <? n)%nat
          end; cbn [ret raise negb andb]); reflexivity.
Qed.

(** All the paths of [run w], with the message written out. *)
Ltac run_cases w :=
  unfold events, exit_status, run;
  let Hp := fresh "Hparse" in
  destruct (Argparse.parse_args (argv w)) as [?a| |?e] eqn:Hp;
  [ rewrite (main_eq w _ Hp); cbv zeta;
    destruct (Py.int (getenv w "SMTP_PORT" "587")) as [?m|?n] eqn:?;
    [ | match goal with
        | |- context [file_system w ?p] =>
            destruct (file_system w p) as [?body|?cls ?msg] eqn:?
        end;
        [ rewrite build_message_result;
          match goal with
          | |- context [headers_accepted ?c ?a] =>
              destruct (headers_accepted c a) eqn:?
          end; [session|]
        | ] ]
  | unfold main, bind, parse_args; rewrite Hp
  | unfold main, bind, parse_args; rewrite Hp ];
  cbn [fst snd app is_Exception str config_reads];
  simplify_eq.

(** X1: the exit status of a run is 0, 1, 2, 3 or 4. *)
Theorem exit_status_range (w : world) :
  In (exit_status w) [0; 1; 2; 3; 4].
Proof.
  run_paths w; cbn; auto 10.
Qed.

(** X2: the exit status is 0 exactly when [argparse] printed the help or
    the SMTP session ran without any call raising. *)
Theorem exit_0_iff (w : world) :
  exit_status w = 0
  <-> Argparse.parse_args (argv w) = Argparse.ExitHelp
      \/ transmission_completed (events w) = true.
Proof.
  run_paths w; cbn; split; auto; try discriminate.
  all: intros [Hx|Hx]; discriminate Hx.
Qed.

(** X3: an exit status 0 that is not the one of the help means that the
    whole script of the session was run, that the message built from the
    configuration, the arguments and the body file was handed to
    [send_message] once and accepted, and that nothing was written to
    stdout or stderr. *)
Theorem success_means_sent (w : world) :
  exit_status w = 0 ->
  Argparse.parse_args (argv w) <> Argparse.ExitHelp ->
  exists a n body,
    Argparse.parse_args (argv w) = Argparse.Parsed a
    /\ Py.int (getenv w "SMTP_PORT" "587") = inr n
    /\ file_system w (Argparse.args_body_file a) = Returns body
    /\ net_calls (events w)
       = (script (config_of w n) (message (config_of w n) a body)
          ++ [Close])%list
    /\ sent (events w) = [message (config_of w n) a body]
    /\ output Stdout (events w) = []
    /\ output Stderr (events w) = [].
Proof.
  run_cases w; cbn [fst snd]; intros Hexit Hhelp;
    try discriminate Hexit; try congruence.
  all: match goal with
       | Hn : Py.int _ = inr ?n,
         Hf : file_system _ (Argparse.args_body_file ?a) = Returns ?body |- _ =>
           exists a, n, body
       end.
  all: unfold script.
  all: repeat match goal with
       | H : starttls _ = _ |- _ => rewrite H
       | H : Py.truthy _ = _ |- _ => rewrite H
       end.
  all: repeat split; auto.
Qed.

Lemma success_means_sent_witness :
  sent (events demo)
  = [ {| headers := [ ("From", "monitor@example.com"); ("To", "a@b.com");
                      ("Subject", "Disk full") ];
         content := Some "disk at 95%" |} ].
Proof.
  destruct (success_means_sent demo) as (a & n & body & _ & _ & _ & _ & _);
    [vm_compute; reflexivity | vm_compute; discriminate |].
  vm_compute. reflexivity.
Defined.


(** X5: the exit status is 2 exactly when [argparse] refuses the
    arguments. *)
Theorem exit_2_iff (w : world) :
  exit_status w = 2
  <-> exists e, Argparse.parse_args (argv w) = Argparse.ExitUsage e.
Proof.
  run_paths w; cbn; split; try discriminate; eauto.
  all: intros [e' He]; discriminate He.
Qed.

(** X6: the exit status is 3 exactly when the arguments parse, the port is
    an integer and reading the body file raises. *)
Theorem exit_3_iff (w : world) :
  exit_status w = 3
  <-> exists a n cls msg,
        Argparse.parse_args (argv w) = Argparse.Parsed a
        /\ Py.int (getenv w "SMTP_PORT" "587") = inr n
        /\ file_system w (Argparse.args_body_file a) = Raises cls msg.
Proof.
  run_paths w; cbn; split; try discriminate; eauto 10.
  all: intros (a' & n' & cls' & msg' & Ha & Hn & Hf); congruence.
Qed.

(** X7: the exit status is 4 exactly when a call of the SMTP session
    raised. *)
Theorem exit_4_iff (w : world) :
  exit_status w = 4
  <-> exists c cls msg, In (c, Raises cls msg) (net_log (events w)).
Proof.
  run_paths w; cbn; split; try discriminate; eauto 12.
  all: intros (c' & cls' & msg' & Hin); exfalso; no_failure Hin.
Qed.

(** *** The header values *)

Lemma append_cons (c : ascii) (a b : string) :
  String c a ++ b = String c (a ++ b).
Proof. reflexivity. Qed.

Lemma append_empty (s : string) : s ++ "" = s.
Proof.
  induction s as [|c s IH]; [reflexivity|]. now rewrite append_cons, IH.
Qed.

Lemma append_append (a b c : string) : (a ++ b) ++ c = a ++ (b ++ c).
Proof.
  induction a as [|x a IH]; [reflexivity|]. now rewrite !append_cons, IH.
Qed.


Lemma splitlines_from_nonempty (s : string) (cur : option string) :
  s <> "" -> Py.splitlines_from cur s <> [].
Proof.
  revert cur. induction s as [|c r IH]; intros cur Hs; [congruence|].
  cbn [Py.splitlines_from].
  destruct (Py.is_linebreak c).
  - destruct r as [|c' r']; [discriminate|].
    destruct (Py.is_CR c && Py.is_LF c'); discriminate.
  - destruct r as [|c' r']; [destruct cur; discriminate|].
    apply IH. discriminate.
Qed.

(** The first line of a string ends at its first line break. *)
Lemma splitlines_from_break (v : string) (c : ascii) (r : string) :
  no_linebreak v = true -> Py.is_linebreak c = true ->
  forall cur,
    Py.splitlines_from cur (v ++ String c r)
    = (default EmptyString cur ++ v)
      :: Py.splitlines_from None
           (match r with
            | String c' r' => if Py.is_CR c && Py.is_LF c' then r' else r
            | EmptyString => EmptyString
            end).
Proof.
  intros Hv Hc. induction v as [|x v IH]; intros cur.
  - change ("" ++ String c r) with (String c r).
    cbn [Py.splitlines_from]. rewrite Hc, append_empty.
    destruct r as [|c' r']; [reflexivity|].
    destruct (Py.is_CR c && Py.is_LF c'); reflexivity.
  - cbn in Hv. apply andb_prop in Hv as [Hx Hv].
    apply negb_true_iff in Hx.
    rewrite append_cons. cbn [Py.splitlines_from]. rewrite Hx, (IH Hv).
    cbn [default from_option id].
    rewrite append_append. reflexivity.
Qed.



Lemma embedded_linebreak_refused (v : string) (c : ascii) (r : string) :
  no_linebreak v = true -> Py.is_linebreak c = true ->
  r <> "" ->
  (forall c', r = String c' EmptyString -> Py.is_CR c && Py.is_LF c' = false) ->
  single_line (v ++ String c r) = false.
Proof.
  intros Hv Hc Hr Hcrlf. unfold single_line, Py.splitlines.
  rewrite (splitlines_from_break v c r Hv Hc).
  destruct r as [|c' r']; [congruence|].
  assert (Hrest : (if Py.is_CR c && Py.is_LF c' then r' else String c' r')
                  <> "").
  { destruct (Py.is_CR c && Py.is_LF c') eqn:E; [|discriminate].
    intros ->. specialize (Hcrlf c' eq_refl). congruence. }
  pose proof (splitlines_from_nonempty _ None Hrest) as Hne.
  destruct (Py.splitlines_from None _); [congruence|reflexivity].
Qed.



(** X9: a header value is refused as soon as it has a line break that is
    followed by something else than the end of the value: the From, To or
    Subject then makes [headers_accepted] false.  (A CR LF at the very end
    counts as one line break.) *)
Theorem embedded_linebreak_header (cfg : config) (a : Argparse.args)
    (v : string) (c : ascii) (r : string) :
  In (v ++ String c r)
     [smtp_from cfg; Argparse.args_to a; Argparse.args_subject a] ->
  no_linebreak v = true -> Py.is_linebreak c = true ->
  r <> "" ->
  (forall c', r = String c' EmptyString -> Py.is_CR c && Py.is_LF c' = false) ->
  headers_accepted cfg a = false.
Proof.
  intros Hin Hv Hc Hr Hcrlf.
  pose proof (embedded_linebreak_refused v c r Hv Hc Hr Hcrlf) as Hrefused.
  unfold headers_accepted.
  destruct Hin as [Heq|[Heq|[Heq|[]]]]; rewrite Heq, Hrefused;
    now rewrite ?andb_false_r.
Qed.

Lemma embedded_linebreak_header_witness :
  headers_accepted
    (Config "localhost" 2525 "" "" "monitor@example.com" false)
    (Argparse.Args "a@b.com" two_lines "/tmp/b.txt") = false.
Proof.
  apply (embedded_linebreak_header _ _ "Disk" (ascii_of_N 10) "full");
    [right; right; left; reflexivity | reflexivity | reflexivity
    | discriminate | intros c' Hc'; discriminate Hc'].
Defined.



(** *** The SMTP session *)


Ltac fill_in :=
  do 3 (split; [first [reflexivity | eassumption]|]); split; [reflexivity|].

(** X12: the calls of a run are a prefix of the script of the session for
    the resolved configuration and the message built, followed by the
    closing of the session if a connection was opened; they are the whole
    script and the closing when no call raised. *)
Theorem calls_follow_script (w : world) :
  net_calls (events w) = []
  \/ exists a n body k,
       Argparse.parse_args (argv w) = Argparse.Parsed a
       /\ Py.int (getenv w "SMTP_PORT" "587") = inr n
       /\ file_system w (Argparse.args_body_file a) = Returns body
       /\ net_calls (events w)
          = (take k (script (config_of w n) (message (config_of w n) a body))
             ++ if connected (events w) then [Close] else [])%list
       /\ (transmission_completed (events w) = true ->
           net_calls (events w)
           = (script (config_of w n) (message (config_of w n) a body)
              ++ [Close])%list).
Proof.
  run_cases w; try (left; reflexivity); right.
  all: match goal with
       | Hn : Py.int _ = inr ?n,
         Hf : file_system _ (Argparse.args_body_file ?a) = Returns ?body |- _ =>
           exists a, n, body
       end.
  all: unfold script.
  all: repeat match goal with
       | H : starttls _ = _ |- _ => rewrite H
       | H : Py.truthy _ = _ |- _ => rewrite H
       end.
  all: cbn [net_calls net_log map fst connected existsb is_connect returned
            snd andb orb transmission_completed forallb app].
  all: first
    [ exists 1%nat; fill_in | exists 2%nat; fill_in | exists 3%nat; fill_in
    | exists 4%nat; fill_in | exists 5%nat; fill_in | exists 6%nat; fill_in
    | exists 7%nat; fill_in ].
  all: intros Hc; first [discriminate Hc | reflexivity].
Qed.

(** X13: the [with] block closes what it opened: the closing of the
    session is called once if the constructor of the connection returned,
    as the last call of the run, whether the body of the block raised or
    not, and not at all otherwise. *)
Theorem connection_closed (w : world) :
  attempts is_close (events w) = (if connected (events w) then 1 else 0)%nat
  /\ (connected (events w) = true ->
      last (net_calls (events w)) = Some Close).
Proof.
  run_paths w; cbn; split; try reflexivity; try discriminate.
Qed.

(** X14: nothing is done twice in a run: at most one TLS context, one
    connection, one STARTTLS, one login, one message, at most two EHLO;
    the body file is opened at most once and no variable is looked up
    twice. *)
Theorem at_most_once (w : world) :
  (attempts is_context (events w) <= 1)%nat
  /\ (attempts is_connect (events w) <= 1)%nat
  /\ (attempts is_starttls (events w) <= 1)%nat
  /\ (attempts is_login (events w) <= 1)%nat
  /\ (attempts is_send (events w) <= 1)%nat
  /\ (attempts is_ehlo (events w) <= 2)%nat
  /\ (length (files_opened (events w)) <= 1)%nat
  /\ List.NoDup (lookups (events w)).
Proof.
  run_paths w; cbn.
  all: repeat split; try lia.
  all: repeat (constructor; [cbn; intuition discriminate|]); constructor.
Qed.

(** X15: when [send_message] has returned and the closing of the session
    raises, the exit status is 4 and the failure is reported, although the
    server has accepted the message. *)
Theorem sent_but_exit_4 (w : world) (m : EmailMessage) (cls msg : string) :
  In (SendMessage m, Returns tt) (net_log (events w)) ->
  In (Close, Raises cls msg) (net_log (events w)) ->
  exit_status w = 4
  /\ sent (events w) = [m]
  /\ printed (events w) = [(Stderr, "SMTP send failed: " ++ msg ++ Py.LF)].
Proof.
  run_paths w; cbn; intros Hs Hc; clear - Hs Hc.
  all: try (exfalso; solve [no_failure Hc]).
  all: try (exfalso; each_call Hs; fail).
  all: each_call Hs; each_call Hc; repeat split.
Qed.

Lemma sent_but_exit_4_witness :
  exit_status demo_closing_badly = 4
  /\ length (sent (events demo_closing_badly)) = 1%nat.
Proof.
  destruct (sent_but_exit_4 demo_closing_badly
              (message (Config "localhost" 2525 "" "" "monitor@example.com" false)
                 demo_args "disk at 95%")
              "SMTPResponseException" "(421, b'timeout')")
    as (Hexit & Hsent & _); [vm_compute; tauto ..|].
  split; [exact Hexit|]. rewrite Hsent. reflexivity.
Defined.

Lemma ordered_from_le (k : nat) (t : trace) :
  ordered_from k t = true -> forall ev, In ev t -> (k <= phase ev)%nat.
Proof.
  revert k. induction t as [|e t IH]; intros k Ht ev Hin; [destruct Hin|].
  cbn in Ht. apply andb_prop in Ht as [Hk Ht]. apply Nat.leb_le in Hk.
  destruct Hin as [<-|Hin]; [assumption|].
  specialize (IH _ Ht ev Hin). lia.
Qed.

Lemma ordered_from_pairs (k : nat) (t : trace) :
  ordered_from k t = true ->
  forall t1 e1 t2, t = (t1 ++ e1 :: t2)%list ->
  forall e2, In e2 t2 -> (phase e1 <= phase e2)%nat.
Proof.
  revert k. induction t as [|e t IH]; intros k Ht t1 e1 t2 Heq e2 Hin.
  - destruct t1; discriminate.
  - cbn in Ht. apply andb_prop in Ht as [_ Ht].
    destruct t1 as [|x t1]; cbn in Heq; injection Heq as -> ->.
    + now apply (ordered_from_le _ _ Ht).
    + now apply (IH _ Ht t1 e1 t2 eq_refl).
Qed.

(** X16: a run never goes back to an earlier stage: of two events, the
    later one belongs to the same stage as the earlier one or to a later
    stage (argument parsing, configuration, body file, SMTP session,
    report). *)
Theorem stages_in_order (w : world) (t1 : trace) (e1 : event) (t2 : trace)
    (e2 : event) :
  events w = (t1 ++ e1 :: t2)%list ->
  In e2 t2 ->
  (phase e1 <= phase e2)%nat.
Proof.
  intros Heq Hin.
  assert (Hord : ordered_from 0 (events w) = true)
    by (clear; run_paths w; reflexivity).
  exact (ordered_from_pairs 0 _ Hord t1 e1 t2 Heq e2 Hin).
Qed.

Lemma stages_in_order_witness :
  (phase (OpenRead "/tmp/b.txt") <= phase (Net Close (Returns tt)))%nat.
Proof.
  apply (stages_in_order demo config_reads (OpenRead "/tmp/b.txt")
           [ Net (SMTP_SSL "localhost" 2525 30) (Returns tt);
             Net (SendMessage
                    (message
                       (Config "localhost" 2525 "" "" "monitor@example.com" false)
                       demo_args "disk at 95%")) (Returns tt);
             Net Close (Returns tt) ]);
    [vm_compute; reflexivity | vm_compute; tauto].
Defined.

(** X17: the variables a run looks up: none when the arguments do not
    parse, SMTP_HOST and SMTP_PORT when [int] refuses the port, the six
    variables of the configuration otherwise, in the order of lines
    20-25. *)
Theorem lookups_made (w : world) :
  lookups (events w)
  = match Argparse.parse_args (argv w) with
    | Argparse.Parsed _ =>
        match Py.int (getenv w "SMTP_PORT" "587") with
        | inr _ => config_vars
        | inl _ => ["SMTP_HOST"; "SMTP_PORT"]
        end
    | _ => []
    end.
Proof.
  run_paths w; reflexivity.
Qed.

(** X18: what a run writes: the program prints at most one line, on
    stderr, which is one of its two diagnostics; stderr gets at most one
    report in all (the diagnostic, the usage error or the traceback), and
    stdout gets nothing but the help of [argparse]. *)
Theorem output_discipline (w : world) :
  (length (printed (events w)) <= 1)%nat
  /\ (forall f s, In (f, s) (printed (events w)) ->
        f = Stderr
        /\ ((exists detail, s = "Error reading body file: " ++ detail ++ Py.LF)
            \/ (exists detail, s = "SMTP send failed: " ++ detail ++ Py.LF)))
  /\ (length (output Stderr (events w)) <= 1)%nat
  /\ (output Stdout (events w) = [] \/ events w = [ArgparseHelp]).
Proof.
  run_paths w; cbn.
  all: (split; [lia|split; [|split; [lia|auto]]]).
  all: intros f' s' Hin; each_call Hin; (split; [reflexivity|]).
  all: first [left; eexists; reflexivity | right; eexists; reflexivity].
Qed.

Lemma transmit_server cfg msg (w w' : world) t :
  server w = server w' -> transmit cfg msg w t = transmit cfg msg w' t.
Proof.
  intros Hsrv. unfold transmit.
  destruct (starttls cfg), (Py.truthy (smtp_user cfg));
    unfold with_, bind, call; rewrite Hsrv; reflexivity.
Qed.

(** X19: a run depends on the environment through the six variables of
    the configuration only: two worlds with the same arguments, files and
    server whose environments agree on these variables have the same
    run. *)
Theorem other_variables_ignored (w1 w2 : world) :
  argv w1 = argv w2 ->
  file_system w1 = file_system w2 ->
  server w1 = server w2 ->
  (forall k, In k config_vars -> environ w1 !! k = environ w2 !! k) ->
  run w1 = run w2.
Proof.
  intros Hargv Hfs Hsrv Henv.
  assert (Hget : forall k d,
             In k config_vars -> getenv w1 k d = getenv w2 k d).
  { intros k d Hk. unfold getenv. now rewrite (Henv k Hk). }
  assert (Hcfg : forall n, config_of w1 n = config_of w2 n).
  { intros n. unfold config_of.
    rewrite (Hget "SMTP_HOST"), (Hget "SMTP_USER"), (Hget "SMTP_PASS"),
      (Hget "SMTP_FROM"), (Hget "SMTP_STARTTLS") by (cbn; tauto).
    reflexivity. }
  unfold run. f_equal.
  destruct (Argparse.parse_args (argv w1)) as [a| |e] eqn:Hp.
  - rewrite (main_eq w1 a Hp).
    rewrite Hargv in Hp. rewrite (main_eq w2 a Hp).
    rewrite (Hget "SMTP_PORT") by (cbn; tauto).
    destruct (Py.int _) as [m|n]; [reflexivity|]. cbv zeta.
    rewrite <- Hfs, <- Hcfg.
    destruct (file_system w1 _) as [body|cls msg]; [|reflexivity].
    rewrite !build_message_result.
    destruct (headers_accepted _ _); [|reflexivity].
    now rewrite (transmit_server _ _ w1 w2).
  - unfold main, bind, parse_args. rewrite <- Hargv, Hp. reflexivity.
  - unfold main, bind, parse_args. rewrite <- Hargv, Hp. reflexivity.
Qed.

Lemma other_variables_ignored_witness : run demo = run demo_other_variable.
Proof.
  apply other_variables_ignored; try reflexivity.
  intros k Hk. cbn in Hk.
  repeat (destruct Hk as [<-|Hk]; [vm_compute; reflexivity|]).
  destruct Hk.
Defined.

(** *** The command line *)

Section CommandLine.

Import Argparse.

Lemma plain_not_dash (c : ascii) (r : string) :
  plain (String c r) = true -> Ascii.eqb c "-" = false.
Proof.
  destruct c as [[] [] [] [] [] [] [] []]; cbn; congruence.
Qed.

Lemma classify_plain (v : string) :
  plain v = true -> parse_optional v = Positional /\ String.eqb v "--" = false.
Proof.
  destruct v as [|c r]; [split; reflexivity|].
  intros Hc%plain_not_dash. cbn. rewrite Hc. split; reflexivity.
Qed.

Lemma classify_option (d : dest) :
  parse_optional (option_string d)
  = Optional (Some (Store d), option_string d, None).
Proof. destruct d; reflexivity. Qed.

Lemma classify_joined (d : dest) (v : string) :
  parse_optional (option_string d ++ "=" ++ v)
  = Optional (Some (Store d), option_string d, Some v).
Proof. destruct d; reflexivity. Qed.

Lemma tokenize_plain (xs : list string) :
  forallb plain xs = true -> tokenize xs = inr (map TArg xs).
Proof.
  induction xs as [|x xs IH]; [reflexivity|].
  cbn [forallb]. intros [Hx Hxs]%andb_prop.
  destruct (classify_plain x Hx) as [Hcl Hsep].
  cbn [tokenize map]. now rewrite Hsep, Hcl, (IH Hxs).
Qed.

Lemma tokenize_command_line (l : list use) (xs : list string) :
  forallb well_formed l = true -> forallb plain xs = true ->
  tokenize (command_line l ++ xs)
  = inr (concat (map tokens_of l) ++ map TArg xs)%list.
Proof.
  intros Hl Hxs. induction l as [|u l IH]; [now apply tokenize_plain|].
  cbn [forallb] in Hl. apply andb_prop in Hl as [Hu Hl]. specialize (IH Hl).
  unfold command_line in *. cbn [map concat].
  rewrite <- !app_assoc.
  destruct u as [d v|d v]; cbn [render tokens_of app].
  - cbn in Hu. destruct (classify_plain v Hu) as [Hv Hsep].
    cbn [tokenize].
    replace (String.eqb (option_string d) "--") with false
      by (destruct d; reflexivity).
    rewrite classify_option, Hsep, Hv, IH. reflexivity.
  - cbn [tokenize].
    replace (String.eqb (option_string d ++ "=" ++ v) "--") with false
      by (destruct d; reflexivity).
    rewrite classify_joined, IH. reflexivity.
Qed.

Lemma consume_plain (xs : list string) :
  forall ns extras,
    consume (map TArg xs) ns extras = finish ns (extras ++ xs).
Proof.
  induction xs as [|x xs IH]; intros ns extras; cbn [map consume].
  - now rewrite app_nil_r.
  - rewrite IH, <- app_assoc. reflexivity.
Qed.

Lemma consume_command_line (l : list use) (xs : list string) :
  forall ns,
    consume (concat (map tokens_of l) ++ map TArg xs) ns []
    = finish (fold_left assign l ns) xs.
Proof.
  induction l as [|u l IH]; intros ns; [apply consume_plain|].
  cbn [map concat fold_left]. rewrite <- app_assoc.
  destruct u as [d v|d v]; cbn [tokens_of app consume assign]; apply IH.
Qed.

Lemma parse_command_line (l : list use) (xs : list string) :
  forallb well_formed l = true -> forallb plain xs = true ->
  Argparse.parse_args (command_line l ++ xs)
  = finish (fold_left assign l (Namespace None None None)) xs.
Proof.
  intros Hl Hxs. unfold Argparse.parse_args.
  now rewrite (tokenize_command_line l xs Hl Hxs), consume_command_line.
Qed.

End CommandLine.

(** X20: the three options can be given in any order, each as
    [--option value] with a value that does not begin with a dash, or as
    [--option=value] with any value, and any number of times: the
    arguments parse if and only if each option is used, and the value of
    an option is the one of its last use, taken as it is. *)
Theorem command_line_parses (l : list use) :
  forallb well_formed l = true ->
  Argparse.parse_args (command_line l)
  = match last_value Argparse.To l, last_value Argparse.Subject l,
          last_value Argparse.BodyFile l with
    | Some t, Some s, Some b => Argparse.Parsed (Argparse.Args t s b)
    | t, s, b =>
        Argparse.ExitUsage
          (Argparse.ErrRequired
             (Argparse.missing t Argparse.To
              ++ Argparse.missing s Argparse.Subject
              ++ Argparse.missing b Argparse.BodyFile)%list)
    end.
Proof.
  intros Hl.
  rewrite <- (app_nil_r (command_line l)).
  rewrite (parse_command_line l [] Hl eq_refl).
  reflexivity.
Qed.

Lemma command_line_parses_witness :
  Argparse.parse_args
    ["--subject=--urgent--"; "--body-file"; "/tmp/b.txt"; "--to"; "x@y.org";
     "--to"; "a@b.com"]
  = Argparse.Parsed (Argparse.Args "a@b.com" "--urgent--" "/tmp/b.txt").
Proof.
  apply (command_line_parses
           [ Joined Argparse.Subject "--urgent--";
             Spaced Argparse.BodyFile "/tmp/b.txt";
             Spaced Argparse.To "x@y.org"; Spaced Argparse.To "a@b.com" ]).
  reflexivity.
Defined.

(** X21: arguments that belong to no option are not ignored: after any
    uses of the options, further arguments that do not begin with a dash
    make [argparse] refuse the command line, so that the exit status is
    2. *)
Theorem stray_arguments_refused (w : world) (l : list use)
    (xs : list string) :
  forallb well_formed l = true -> forallb plain xs = true -> xs <> [] ->
  argv w = (command_line l ++ xs)%list ->
  exists e, run w = ([ArgparseError e], 2).
Proof.
  intros Hl Hxs Hne Hargv.
  assert (Hparse : exists e, Argparse.parse_args (argv w) = Argparse.ExitUsage e).
  { rewrite Hargv, (parse_command_line l xs Hl Hxs).
    unfold Argparse.finish.
    destruct (Argparse.to _), (Argparse.subject _), (Argparse.body_file _);
      eauto.
    destruct xs; [congruence|eauto]. }
  destruct Hparse as [e He]. exists e.
  unfold run, main, bind, parse_args. now rewrite He.
Qed.

Lemma stray_arguments_refused_witness :
  exists e,
    run (World (demo_argv ++ ["now"])%list demo_env demo_files accepting)
    = ([ArgparseError e], 2).
Proof.
  apply (stray_arguments_refused _
           [ Spaced Argparse.To "a@b.com"; Spaced Argparse.Subject "Disk full";
             Spaced Argparse.BodyFile "/tmp/b.txt" ] ["now"]);
    [reflexivity | reflexivity | discriminate | reflexivity].
Defined.

(** *** The values of the configuration *)

Ltac all_characters c := destruct c as [[] [] [] [] [] [] [] []]; reflexivity.

Lemma case_stable_flag_letters :
  Forall case_stable (list_ascii_of_string "1trueys").
Proof.
  repeat (constructor; [intros c; all_characters c|]). constructor.
Qed.

Lemma lower_eqb (p v : string) :
  Forall case_stable (list_ascii_of_string p) ->
  String.eqb (Py.lower v) p = same_up_to_case v p.
Proof.
  revert v. induction p as [|x p IH]; intros v Hp.
  - destruct v; reflexivity.
  - cbn in Hp. inversion Hp as [|? ? Hx Hp']; subst.
    destruct v as [|c v]; [reflexivity|].
    cbn [Py.lower same_up_to_case String.eqb].
    rewrite (Hx c), (IH v Hp'). reflexivity.
Qed.

(** X22: the values of SMTP_STARTTLS that select the STARTTLS mode are
    "1", "true" and "yes" with each letter in lower or upper case, and
    nothing else: no other character is lower-cased to one of theirs, and
    white space is not stripped. *)
Theorem starttls_values (w : world) (cfg : config) :
  resolved w = Some cfg ->
  starttls cfg
  = existsb (same_up_to_case (getenv w "SMTP_STARTTLS" "true"))
      ["1"; "true"; "yes"].
Proof.
  intros (n & _ & ->)%resolved_inv.
  cbn [starttls config_of]. unfold Py.in_tuple. cbn [existsb].
  rewrite !lower_eqb; [reflexivity|..].
  all: pose proof case_stable_flag_letters as H; cbn in H.
  all: repeat match goal with
       | H : Forall _ (_ :: _) |- _ => inversion H; clear H; subst
       end.
  all: cbn; repeat constructor; assumption.
Qed.

Lemma starttls_values_witness :
  starttls (Config "smtp.gmail.com" 587 "" "" "monitor@example.com" true)
  = existsb (same_up_to_case "YeS") ["1"; "true"; "yes"].
Proof.
  apply (starttls_values demo_mixed_case). vm_compute. reflexivity.
Defined.

Lemma int_digits_all_digits (s : string) :
  all_digits s = true ->
  forall acc n b,
    (s <> "" \/ b = true) ->
    Py.int_digits acc n b s
    = Some (decimal acc s, (n + String.length s)%nat).
Proof.
  induction s as [|c r IH]; intros Hs acc n b Hne.
  - destruct Hne as [Hne| ->]; [congruence|].
    cbn. now rewrite Nat.add_0_r.
  - cbn in Hs. apply andb_prop in Hs as [Hc Hr].
    cbn [Py.int_digits decimal]. rewrite Hc.
    rewrite (IH Hr) by now right.
    cbn [String.length]. do 2 f_equal. lia.
Qed.

Lemma decimal_nonnegative (s : string) :
  all_digits s = true -> forall acc, 0 <= acc -> 0 <= decimal acc s.
Proof.
  induction s as [|c r IH]; intros Hs acc Hacc; [assumption|].
  cbn in Hs. apply andb_prop in Hs as [Hc Hr].
  cbn [decimal]. apply (IH Hr).
  unfold Py.digit_value, Py.is_digit in *.
  apply andb_prop in Hc as [Hlo _]. apply N.leb_le in Hlo. lia.
Qed.

Lemma digit_is_no_space_or_sign (c : ascii) :
  Py.is_digit c = true ->
  Py.is_int_space c = false /\ Ascii.eqb c "+" = false
  /\ Ascii.eqb c "-" = false.
Proof.
  destruct c as [[] [] [] [] [] [] [] []]; cbn; intros; try discriminate;
    auto.
Qed.

Lemma int_digits_accepted (s : string) :
  all_digits s = true -> s <> "" ->
  (String.length s <= Py.max_str_digits)%nat ->
  Py.int s = inr (decimal 0 s).
Proof.
  intros Hs Hne Hlen.
  destruct s as [|c r]; [congruence|].
  pose proof Hs as Hs'. cbn in Hs'. apply andb_prop in Hs' as [Hc _].
  destruct (digit_is_no_space_or_sign c Hc) as (Hsp & Hplus & Hminus).
  pose proof (int_digits_all_digits _ Hs 0 0%nat false
                ltac:(left; discriminate)) as E.
  unfold Py.int. cbn [Py.skip_space]. rewrite Hsp.
  assert (Hsign : match String c r with
                  | String "+" r0 => (false, r0)
                  | String "-" r0 => (true, r0)
                  | _ => (false, String c r)
                  end = (false, String c r)).
  { clear - Hplus Hminus.
    destruct c as [[] [] [] [] [] [] [] []]; cbn in *; congruence. }
  rewrite Hsign, E. cbn [Nat.add].
  apply Nat.leb_le in Hlen. now rewrite Hlen.
Qed.

(** X23: a non-empty SMTP_PORT of at most 4300 decimal digits is accepted
    whatever its value: the configuration is resolved, and the port is the
    number the digits write, with no check of its range. *)
Theorem digit_port_resolves (w : world) (s : string) :
  environ w !! "SMTP_PORT" = Some s ->
  all_digits s = true -> s <> "" ->
  (String.length s <= Py.max_str_digits)%nat ->
  exists cfg,
    resolved w = Some cfg /\ smtp_port cfg = decimal 0 s
    /\ 0 <= smtp_port cfg.
Proof.
  intros Hport Hs Hne Hlen.
  exists (config_of w (decimal 0 s)).
  rewrite resolved_eq. unfold getenv. rewrite Hport. cbn [from_option id].
  rewrite (int_digits_accepted s Hs Hne Hlen).
  repeat split. cbn [smtp_port config_of].
  apply decimal_nonnegative; [assumption|lia].
Qed.

Lemma digit_port_resolves_witness :
  exists cfg, resolved demo_long_port = Some cfg /\ smtp_port cfg = 99999.
Proof.
  destruct (digit_port_resolves demo_long_port "099999")
    as (cfg & Hcfg & Hport & _);
    [reflexivity | reflexivity | discriminate | vm_compute; lia |].
  exists cfg. split; [exact Hcfg|]. rewrite Hport. reflexivity.
Defined.

Lemma all_space_int_chars (s : string) :
  Py.all_space s = true -> all_int_chars s = true.
Proof.
  induction s as [|c r IH]; [reflexivity|]. cbn.
  intros [Hc Hr]%andb_prop. unfold int_char. rewrite Hc, (IH Hr).
  now rewrite orb_true_r.
Qed.

Lemma int_digits_int_chars (s : string) :
  forall acc n b r,
    Py.int_digits acc n b s = Some r -> all_int_chars s = true.
Proof.
  induction s as [|c s IH]; intros acc n b r; [reflexivity|].
  cbn [Py.int_digits all_int_chars]. unfold int_char.
  destruct (Py.is_digit c); [intros E; now rewrite (IH _ _ _ _ E)|].
  destruct (Ascii.eqb c "_").
  { destruct b; [|discriminate]. intros E. rewrite (IH _ _ _ _ E).
    now rewrite !orb_true_r. }
  destruct (Py.is_int_space c); [|discriminate].
  destruct b; [|discriminate]. cbn [andb].
  destruct (Py.all_space s) eqn:Hs; [|discriminate].
  intros _. now rewrite (all_space_int_chars s Hs).
Qed.

Lemma skip_space_int_chars (s : string) :
  all_int_chars (Py.skip_space s) = true -> all_int_chars s = true.
Proof.
  induction s as [|c s IH]; [reflexivity|]. cbn [Py.skip_space].
  destruct (Py.is_int_space c) eqn:Hc; [|tauto].
  intros H. cbn. unfold int_char. rewrite Hc, (IH H).
  now rewrite orb_true_r.
Qed.

Lemma int_accepts_only_int_chars (s : string) (n : Z) :
  Py.int s = inr n -> all_int_chars s = true.
Proof.
  unfold Py.int. intros H. apply skip_space_int_chars.
  destruct (Py.skip_space s) as [|c r] eqn:Hs; [reflexivity|].
  assert (Hcases :
    (exists neg, (match String c r with
                  | String "+" r0 => (false, r0)
                  | String "-" r0 => (true, r0)
                  | _ => (false, String c r)
                  end) = (neg, r)
                 /\ (Ascii.eqb c "+" || Ascii.eqb c "-" = true))
    \/ (match String c r with
        | String "+" r0 => (false, r0)
        | String "-" r0 => (true, r0)
        | _ => (false, String c r)
        end = (false, String c r))).
  { destruct c as [[] [] [] [] [] [] [] []]; cbn; eauto. }
  destruct Hcases as [(neg & E & Hc)|E]; rewrite E in H.
  - destruct (Py.int_digits 0 0 false r) as [[v k]|] eqn:Ed; [|discriminate].
    cbn. unfold int_char. rewrite (int_digits_int_chars _ _ _ _ _ Ed).
    apply orb_prop in Hc as [-> | ->]; now rewrite ?orb_true_r.
  - destruct (Py.int_digits 0 0 false (String c r)) as [[v k]|] eqn:Ed;
      [|discriminate].
    apply (int_digits_int_chars _ _ _ _ _ Ed).
Qed.

(** X24: when the arguments parse and SMTP_PORT is set to a value with a
    character that is neither a digit, an underscore, a sign nor white
    space, the run ends with exit status 1 after the second look-up: no
    file is read, nothing is called in [ssl] or [smtplib], and the program
    prints nothing. *)
Theorem port_character_refused (w : world) (a : Argparse.args) (s : string) :
  Argparse.parse_args (argv w) = Argparse.Parsed a ->
  environ w !! "SMTP_PORT" = Some s ->
  all_int_chars s = false ->
  exit_status w = 1
  /\ lookups (events w) = ["SMTP_HOST"; "SMTP_PORT"]
  /\ files_opened (events w) = []
  /\ net_log (events w) = []
  /\ printed (events w) = [].
Proof.
  intros Hparse Hport Hs.
  unfold exit_status, events, run. rewrite (main_eq w a Hparse).
  unfold getenv. rewrite Hport. cbn [from_option id].
  destruct (Py.int s) as [m|n] eqn:Hint.
  - cbn. auto.
  - rewrite (int_accepts_only_int_chars s n Hint) in Hs. discriminate.
Qed.

Lemma port_character_refused_witness :
  exit_status demo_hex_port = 1 /\ net_log (events demo_hex_port) = [].
Proof.
  destruct (port_character_refused demo_hex_port demo_args "0x24b")
    as (Hexit & _ & _ & Hnet & _); [reflexivity ..|].
  split; [exact Hexit | exact Hnet].
Defined.
